(** * Flight-log to track conversion and coordinate import

    A shallow embedding of the algorithmic core of the PX4 simulation
    launcher: [sim.py] (first generation) and [v3.py] (third generation).

    - [_fallback_ulog_to_kml]  (sim.py): topic selection, stride
      downsampling with finite-value filtering, track file creation;
    - [_unique_name]           (both files): collision-free output names;
    - [_coords_from_kml], [_coords_from_plan], [_import_coords]
                               (both files): coordinate import and the
      swap heuristic;
    - [_get_vehicle_targets], [_select_px4_dir]
                               (sim.py): the vehicle targets offered;
    - [_start]                 (v3.py): validation of the launch form.

    Python floats are IEEE binary64 numbers and are modelled by Rocq's
    primitive floats; Python integers by [Z]; Python exceptions by an
    explicit error result. *)

From Stdlib Require Import ZArith Floats Ascii String.
From stdpp Require Import base gmap sets list strings pretty sorting.

Local Open Scope Z_scope.
Set Warnings "-register-all".

(** ** Python values and exceptions *)

(** The exceptions that the modelled code can raise. *)
Inductive exn :=
  | RuntimeError (msg : string)
  | IndexError
  | ValueError
  | TypeError
  | KeyError
  | AttributeError
  | OverflowError.

(** Outcome of a Python computation: a value or a raised exception. *)
Inductive py (A : Type) :=
  | Ret (a : A)
  | Raise (e : exn).
Arguments Ret {A} a.
Arguments Raise {A} e.

Global Instance py_ret : MRet py := fun _ a => Ret a.
Global Instance py_bind : MBind py := fun _ _ k m =>
  match m with
  | Ret a => k a
  | Raise e => Raise e
  end.

(** [try: m  except Exception: h] *)
Definition try_except {A} (m : py A) (h : py A) : py A :=
  match m with
  | Ret a => Ret a
  | Raise _ => h
  end.

(** [l[i]] on a Python sequence, for a non-negative index. *)
Definition py_index {A} (l : list A) (i : nat) : py A :=
  match l !! i with
  | Some a => Ret a
  | None => Raise IndexError
  end.

(** The builtin [float] on strings and on integers is the interpreter's,
    not this program's: it is a parameter of the development.  [None] is
    a raised [ValueError] (strings) or [OverflowError] (integers). *)
Class PyFloat := {
  float_of_str : string -> option float;
  float_of_int : Z -> option float
}.

(** [math.isfinite] *)
Definition isfinite (x : float) : bool :=
  negb (PrimFloat.is_nan x) && negb (PrimFloat.is_infinity x).

(** ** Flight logs (pyulog's [ULog.data_list]) *)

(** One entry of a field array of a topic. *)
Inductive cell :=
  | CFloat (x : float)
  | CInt (n : Z)
  | COpaque.   (* a value [float()] rejects *)

(** [d.name] and [d.data] of a [ULog.Data] object; [data] maps a field
    name to its array. *)
Record topic := Topic {
  name : string;
  data : gmap string (list cell)
}.

(** One element of [coords]: the tuple [(lo, la, al)]. *)
Definition sample : Type := float * float * float.

(** The track file handed to simplekml: one line string. *)
Record kml_file := KmlFile {
  ls_name : string;
  ls_coords : list sample;
  ls_altitudemode : string;
  ls_tessellate : Z;
  ls_color : string;
  ls_width : Z
}.

(** A file of the output directory: a track written by the fallback, or
    content produced by an external tool. *)
Inductive file :=
  | FallbackTrack (k : kml_file)
  | ToolOutput (content : string).

(** The output directory: file name to content. *)
Abbreviation directory := (gmap string file).

Section Fallback.
Context `{PF : PyFloat}.

(** [float(x)] on an array entry. *)
Definition float_of_cell (c : cell) : py float :=
  match c with
  | CFloat x => Ret x
  | CInt n =>
      match float_of_int n with
      | Some x => Ret x
      | None => Raise OverflowError
      end
  | COpaque => Raise TypeError
  end.

(** The local helper [f(x, s=1.0)] of [_fallback_ulog_to_kml]. *)
Definition f (x : cell) (s : float) : option float :=
  match float_of_cell x with
  | Ret v0 =>
      let v := (v0 / s)%float in
      if isfinite v then Some v else None
  | Raise _ => None
  end.

(** [for d in ulog.data_list: if d.name == n: ...; break] *)
Fixpoint find_topic (n : string) (data_list : list topic) : option topic :=
  match data_list with
  | [] => None
  | d :: rest => if decide (name d = n) then Some d else find_topic n rest
  end.

(** The state after the two topic loops (lines 147-154):
    [(rec, lat, lon, alt, scale)], or [None] while [rec is None]. *)
Record selection := Selection {
  sel_topic : topic;
  sel_lat : option (list cell);
  sel_lon : option (list cell);
  sel_alt : option (list cell);
  sel_scale : float
}.

Definition select_from (d : topic) (scale : float) : selection :=
  Selection d (data d !! "lat") (data d !! "lon") (data d !! "alt") scale.

Definition select_topic (data_list : list topic) : option selection :=
  match find_topic "vehicle_global_position" data_list with
  | Some d => Some (select_from d 1)
  | None =>
      match find_topic "vehicle_gps_position" data_list with
      | Some d => Some (select_from d 1e7)
      | None => None
      end
  end.

(** Lines 164-166 for one index [i] that passed the stride test:
    [Ret None] is [continue], [Ret (Some c)] is [coords.append(c)]. *)
Definition sample_at (lat lon : list cell) (alt : option (list cell))
    (scale : float) (i : nat) : py (option sample) :=
  x_lat ← py_index lat i;
  let la := f x_lat scale in
  x_lon ← py_index lon i;
  let lo := f x_lon scale in
  al ← match alt with
       | Some a => x_alt ← py_index a i; Ret (f x_alt 1)
       | None => Ret (Some 0%float)
       end;
  match la, lo with
  | Some la, Some lo =>
      Ret (Some (lo, la, match al with Some al => al | None => 0%float end))
  | _, _ => Ret None
  end.

(** The loop of lines 161-167 from index [i] on, with [n] indices left;
    the state is [(coords, last)]. *)
Fixpoint track_loop (lat lon : list cell) (alt : option (list cell))
    (scale : float) (downsample : Z) (n i : nat)
    (coords : list sample) (last : Z) : py (list sample) :=
  match n with
  | O => Ret coords
  | S n' =>
      if Z.of_nat i - last <? downsample
      then track_loop lat lon alt scale downsample n' (S i) coords last
      else
        r ← sample_at lat lon alt scale i;
        match r with
        | None => track_loop lat lon alt scale downsample n' (S i) coords last
        | Some c =>
            track_loop lat lon alt scale downsample n' (S i)
              (coords ++ [c]) (Z.of_nat i)
        end
  end.

(** The same loop, returning the indices that passed the stride test
    (those at which the code reads the arrays) instead of the track. *)
Fixpoint visited_loop (lat lon : list cell) (alt : option (list cell))
    (scale : float) (downsample : Z) (n i : nat) (last : Z) : list nat :=
  match n with
  | O => []
  | S n' =>
      if Z.of_nat i - last <? downsample
      then visited_loop lat lon alt scale downsample n' (S i) last
      else
        i ::
        match sample_at lat lon alt scale i with
        | Ret None => visited_loop lat lon alt scale downsample n' (S i) last
        | Ret (Some _) =>
            visited_loop lat lon alt scale downsample n' (S i) (Z.of_nat i)
        | Raise _ => []
        end
  end.

(** Lines 161-167: [coords=[]; last=-downsample; for i in range(len(lat))]. *)
Definition extract_coords (lat lon : list cell) (alt : option (list cell))
    (scale : float) (downsample : Z) : py (list sample) :=
  track_loop lat lon alt scale downsample (length lat) 0 [] (- downsample).

Definition visited (lat lon : list cell) (alt : option (list cell))
    (scale : float) (downsample : Z) : list nat :=
  visited_loop lat lon alt scale downsample (length lat) 0 (- downsample).

Definition no_topic_msg : string :=
  "No GPS/global position topics found in ULog.".
Definition no_samples_msg : string :=
  "No valid GPS samples extracted from ULog.".

(** Lines 147-168: the in-memory track, or the raised error. *)
Definition extract_track (data_list : list topic) (downsample : Z)
    : py (list sample) :=
  match select_topic data_list with
  | Some (Selection _ (Some lat) (Some lon) alt scale) =>
      coords ← extract_coords lat lon alt scale downsample;
      match coords with
      | [] => Raise (RuntimeError no_samples_msg)
      | _ => Ret coords
      end
  | _ => Raise (RuntimeError no_topic_msg)
  end.

(** Lines 169-171: the line string built from [coords]
    ([basename] is [os.path.basename(ulg_path)]). *)
Definition track_file (basename : string) (coords : list sample) : kml_file :=
  KmlFile basename coords "absolute" 1 "ff0000ff" 4.

(** [_fallback_ulog_to_kml(ulg_path, out_path, downsample)] on the decoded
    log [data_list], [out_path] being the file [tgt] of the output
    directory [dir]: the outcome and the directory afterwards
    ([kml.save] is the last statement). *)
Definition _fallback_ulog_to_kml (basename : string) (data_list : list topic)
    (tgt : string) (downsample : Z) (dir : directory)
    : py unit * directory :=
  match extract_track data_list downsample with
  | Ret coords =>
      (Ret tt, <[tgt := FallbackTrack (track_file basename coords)]> dir)
  | Raise e => (Raise e, dir)
  end.

End Fallback.

(** ** Output naming ([_unique_name]) and the conversion driver *)

(** [name.rfind('.')] *)
Fixpoint rfind_dot (s : string) : option nat :=
  match s with
  | EmptyString => None
  | String c r =>
      match rfind_dot r with
      | Some i => Some (S i)
      | None => if decide (c = "."%char) then Some 0%nat else None
      end
  end.

Fixpoint string_take (n : nat) (s : string) : string :=
  match n, s with
  | S n', String c r => String c (string_take n' r)
  | _, _ => EmptyString
  end.

Fixpoint string_drop (n : nat) (s : string) : string :=
  match n, s with
  | S n', String _ r => string_drop n' r
  | _, _ => s
  end.

(** pathlib's split of a file name at its last dot: the dot must be
    neither the first nor the last character ([0 < i < len(name) - 1]). *)
Definition split_suffix (nm : string) : string * string :=
  match rfind_dot nm with
  | Some i =>
      if bool_decide (0 < i < String.length nm - 1)%nat
      then (string_take i nm, string_drop i nm)
      else (nm, EmptyString)
  | None => (nm, EmptyString)
  end.

(** [PurePath.stem] and [PurePath.suffix] of a file name. *)
Definition stem (nm : string) : string := fst (split_suffix nm).
Definition suffix (nm : string) : string := snd (split_suffix nm).

(** The candidate [f"{stem}-{i}{suf}"]. *)
Definition candidate (stm suf : string) (i : nat) : string :=
  stm +:+ "-" +:+ pretty i +:+ suf.

(** The [while True] loop of [_unique_name], [fuel] iterations of it.
    [entries] is the set of names present in the directory of [base];
    [base.with_name] stays in that directory. *)
Fixpoint unique_name_loop (fuel : nat) (entries : gset string)
    (stm suf : string) (i : nat) : option string :=
  match fuel with
  | O => None
  | S fuel' =>
      let cand := candidate stm suf i in
      if decide (cand ∈ entries)
      then unique_name_loop fuel' entries stm suf (S i)
      else Some cand
  end.

(** [_unique_name(base)], the loop cut off after [fuel] iterations
    ([None]: still searching). *)
Definition _unique_name (fuel : nat) (entries : gset string) (base : string)
    : option string :=
  if decide (base ∈ entries) then
    unique_name_loop fuel entries (stem base) (suffix base) 1
  else Some base.

(** What [run] reports through [_set_k_status]. *)
Inductive conversion_result :=
  | Success (status : string)
  | Failure (e : exn).

Section Convert.
Context `{PF : PyFloat}.

(** The worker [run] of [_convert_ulg_to_kml] in sim.py.  [tool] is the
    outcome of [subprocess.run] (its return code), [dir] the output
    directory after the tool ran, [ulog] the outcome of opening the log
    with pyulog, [rename_ok] and [unlink_ok] whether [produced.rename]
    and [produced.unlink] succeed (a failed rename is followed by a copy
    and an unlink).  [_unique_name] gets one iteration more than the
    directory has entries, which always suffices
    ([unique_name_terminates]): its [None] branches are dead. *)
Definition run (tool : py Z) (rename_ok unlink_ok : bool)
    (ulg_name : string) (ulog : py (list topic)) (dir : directory)
    : conversion_result * directory :=
  let base := stem ulg_name +:+ ".kml" in
  match tool with
  | Raise e => (Failure e, dir)
  | Ret returncode =>
      match (if returncode =? 0 then dir !! "track.kml" else None) with
      | Some produced =>
          match _unique_name (S (size (dom dir))) (dom dir) base with
          | None => (Failure (RuntimeError "unreachable"), dir)
          | Some tgt =>
              let dir' :=
                if rename_ok then <[tgt := produced]> (delete "track.kml" dir)
                else if unlink_ok
                     then delete "track.kml" (<[tgt := produced]> dir)
                     else <[tgt := produced]> dir in
              (Success ("KML created: " +:+ tgt), dir')
          end
      | None =>
          match _unique_name (S (size (dom dir))) (dom dir) base with
          | None => (Failure (RuntimeError "unreachable"), dir)
          | Some tgt =>
              match ulog with
              | Raise e => (Failure e, dir)
              | Ret data_list =>
                  match _fallback_ulog_to_kml ulg_name data_list tgt 5 dir with
                  | (Ret _, dir') =>
                      (Success ("KML created (fallback): " +:+ tgt), dir')
                  | (Raise e, dir') => (Failure e, dir')
                  end
              end
          end
      end
  end.
End Convert.

(** ** Python string operations

    A [string] is a sequence of characters with code points below 256. *)

(** [str.isspace] on one character. *)
Definition is_space (c : ascii) : bool :=
  let n := nat_of_ascii c in
  ((9 <=? n) && (n <=? 13) || (28 <=? n) && (n <=? 32)
   || (n =? 133) || (n =? 160))%nat.

Fixpoint lstrip (s : string) : string :=
  match s with
  | EmptyString => EmptyString
  | String c r => if is_space c then lstrip r else s
  end.

Fixpoint rstrip (s : string) : string :=
  match s with
  | EmptyString => EmptyString
  | String c r =>
      match rstrip r with
      | EmptyString => if is_space c then EmptyString else String c EmptyString
      | r' => String c r'
      end
  end.

(** [s.strip()] *)
Definition strip (s : string) : string := rstrip (lstrip s).

(** [s.split()]: the maximal runs of non-whitespace characters. *)
Fixpoint split_ws (s : string) : list string :=
  match s with
  | EmptyString => []
  | String c r =>
      if is_space c then split_ws r
      else
        match r with
        | EmptyString => [String c EmptyString]
        | String c' _ =>
            if is_space c' then String c EmptyString :: split_ws r
            else
              match split_ws r with
              | w :: ws => String c w :: ws
              | [] => [String c EmptyString]
              end
        end
  end.

(** [s.split(sep)] for a one-character separator: never empty. *)
Fixpoint split_on (sep : ascii) (s : string) : list string :=
  match s with
  | EmptyString => [EmptyString]
  | String c r =>
      if decide (c = sep) then EmptyString :: split_on sep r
      else
        match split_on sep r with
        | w :: ws => String c w :: ws
        | [] => [String c EmptyString]
        end
  end.

(** [p in s] for strings. *)
Fixpoint contains (p s : string) : bool :=
  String.prefix p s ||
  match s with
  | EmptyString => false
  | String _ r => contains p r
  end.

(** ** Documents: ElementTree elements and decoded JSON *)

Inductive element :=
  | Element (tag : string) (text : option string) (children : list element).

Definition tag_of (e : element) : string :=
  match e with Element t _ _ => t end.
Definition text_of (e : element) : option string :=
  match e with Element _ x _ => x end.
Definition children_of (e : element) : list element :=
  match e with Element _ _ cs => cs end.

(** [e.iter()]: the element, then its descendants, in document order. *)
Fixpoint iter (e : element) : list element :=
  match e with
  | Element _ _ cs => e :: flat_map iter cs
  end.

Definition kml_ns : string := "{http://www.opengis.net/kml/2.2}".

Fixpoint find_tag (t : string) (es : list element) : option element :=
  match es with
  | [] => None
  | e :: rest => if decide (tag_of e = t) then Some e else find_tag t rest
  end.

(** [root.find(".//kml:Point", ns)]: the first proper descendant. *)
Definition find_point (root : element) : option element :=
  find_tag (kml_ns +:+ "Point") (flat_map iter (children_of root)).

(** [pt.find("kml:coordinates", ns)]: the first child. *)
Definition find_coordinates (pt : element) : option element :=
  find_tag (kml_ns +:+ "coordinates") (children_of pt).

(** A value returned by [json.loads]; an object lists its items in
    order, each key once. *)
Inductive json :=
  | JNull
  | JBool (b : bool)
  | JInt (n : Z)
  | JFloat (x : float)
  | JStr (s : string)
  | JArr (items : list json)
  | JObj (items : list (string * json)).

Fixpoint assoc (k : string) (kv : list (string * json)) : option json :=
  match kv with
  | [] => None
  | (k', v) :: rest => if decide (k' = k) then Some v else assoc k rest
  end.

(** [d.get(k, default)] *)
Definition py_get (d : json) (k : string) (default : json) : py json :=
  match d with
  | JObj kv => Ret (match assoc k kv with Some v => v | None => default end)
  | _ => Raise AttributeError
  end.

(** ** Coordinate import ([_coords_from_plan], [_coords_from_kml],
       [_import_coords]) *)

(** What [_import_coords] writes to the log pane. *)
Inductive log_event :=
  | SwapNotice                           (* "[INFO] Coordinates automatically swapped ..." *)
  | ImportedNotice (lat lon : float).    (* "[INFO] Imported coordinates from ..." *)

(** How [_import_coords] ends once a file was chosen. *)
Inductive import_outcome :=
  | Imported (lat lon : float) (log : list log_event)
      (* [lat_var], [lon_var] set; "Imported" dialog *)
  | NotFound                             (* "Not found" warning, nothing set *)
  | ImportFailed (e : exn).              (* "Import failed" error, nothing set *)

(** The chosen file: its suffix decides the reader; the payload is the
    outcome of [ET.parse(...).getroot()] or of [json.loads(...)]. *)
Inductive source :=
  | KmlSource (root : py element)
  | PlanSource (data : py json)
  | OtherSource.

Section CoordinateImport.
Context `{PF : PyFloat}.

(** [float(s)] on a string. *)
Definition float_of_text (s : string) : py float :=
  match float_of_str s with
  | Some x => Ret x
  | None => Raise ValueError
  end.

(** [float(v)] on a decoded JSON value. *)
Definition float_of_json (v : json) : py float :=
  match v with
  | JFloat x => Ret x
  | JInt n =>
      match float_of_int n with
      | Some x => Ret x
      | None => Raise OverflowError
      end
  | JBool b => Ret (if b then 1%float else 0%float)
  | JStr s => float_of_text s
  | _ => Raise TypeError
  end.

(** [for it in x]: the values the loop variable takes. *)
Definition py_iter (x : json) : py (list json) :=
  match x with
  | JArr l => Ret l
  | JObj kv => Ret (map (fun p => JStr (fst p)) kv)
  | JStr s => Ret (map (fun c => JStr (String c EmptyString)) (list_ascii_of_string s))
  | _ => Raise TypeError
  end.

(** [k in x] for a string [k]. *)
Definition py_in (k : string) (x : json) : py bool :=
  match x with
  | JObj kv => Ret (bool_decide (is_Some (assoc k kv)))
  | JArr l =>
      Ret (existsb (fun v => match v with
                             | JStr s => bool_decide (s = k)
                             | _ => false
                             end) l)
  | JStr s => Ret (contains k s)
  | _ => Raise TypeError
  end.

(** [x[k]] for a string [k]. *)
Definition py_getitem (x : json) (k : string) : py json :=
  match x with
  | JObj kv =>
      match assoc k kv with
      | Some v => Ret v
      | None => Raise KeyError
      end
  | _ => Raise TypeError
  end.

(** ["param5" in it and "param6" in it] *)
Definition has_both (it : json) : py bool :=
  has5 ← py_in "param5" it;
  if has5 : bool then py_in "param6" it else Ret false.

(** The body of the first [try] of [_coords_from_plan], from the loop
    on: [Ret (Some p)] is [return p], [Ret None] the end of the loop. *)
Fixpoint scan_items (items : list json) : py (option (float * float)) :=
  match items with
  | [] => Ret None
  | it :: rest =>
      both ← has_both it;
      if both : bool then
        v5 ← py_getitem it "param5";
        x5 ← float_of_json v5;
        v6 ← py_getitem it "param6";
        x6 ← float_of_json v6;
        Ret (Some (x5, x6))
      else scan_items rest
  end.

Definition first_waypoint (data : json) : py (option (float * float)) :=
  mission ← py_get data "mission" (JObj []);
  items ← py_get mission "items" (JArr []);
  its ← py_iter items;
  scan_items its.

(** The body of the second [try] of [_coords_from_plan]. *)
Definition planned_home (data : json) : py (option (float * float)) :=
  mission ← py_get data "mission" (JObj []);
  php ← py_get mission "plannedHomePosition" JNull;
  match php with
  | JArr (p0 :: p1 :: _) =>
      x0 ← float_of_json p0;
      x1 ← float_of_json p1;
      Ret (Some (x0, x1))
  | _ => Ret None
  end.

(** [_coords_from_plan] on the decoded document. *)
Definition _coords_from_plan (data : json) : py (option float * option float) :=
  match first_waypoint data with
  | Ret (Some (la, lo)) => Ret (Some la, Some lo)
  | _ =>
      match planned_home data with
      | Ret (Some (la, lo)) => Ret (Some la, Some lo)
      | _ => Ret (None, None)
      end
  end.

(** [_coords_from_kml] from [pt] on: the part both files share. *)
Definition point_coords (pt : option element) : py (option float * option float) :=
  match pt with
  | None => Ret (None, None)
  | Some pt =>
      match find_coordinates pt with
      | None => Ret (None, None)
      | Some el =>
          match text_of el with
          | None | Some EmptyString => Ret (None, None)
          | Some txt =>
              first ← py_index (split_ws (strip txt)) 0;
              try_except
                (match split_on "," first with
                 | lo :: la :: _ =>
                     x_la ← float_of_text la;
                     x_lo ← float_of_text lo;
                     Ret (Some x_la, Some x_lo)
                 | _ => Raise ValueError
                 end)
                (Ret (None, None))
          end
      end
  end.

(** The loop over [root.iter()] that v3.py runs when there is no Point:
    [Ret (Some p)] is [return p], [Ret None] the end of the loop. *)
Fixpoint scan_coordinates (es : list element) : py (option (float * float)) :=
  match es with
  | [] => Ret None
  | elem :: rest =>
      match (if contains "coordinates" (tag_of elem) then text_of elem else None) with
      | None | Some EmptyString => scan_coordinates rest
      | Some txt =>
          match split_on "," (strip txt) with
          | p0 :: p1 :: _ =>
              x1 ← float_of_text p1;
              x0 ← float_of_text p0;
              Ret (Some (x1, x0))
          | _ => scan_coordinates rest
          end
      end
  end.

(** The swap heuristic and what follows it in [_import_coords]. *)
Definition finish_import (lat lon : float) : import_outcome :=
  if (lat <? lon)%float
  then Imported lon lat [SwapNotice; ImportedNotice lon lat]
  else Imported lat lon [ImportedNotice lat lon].

(** The [try] block of [_import_coords] up to the extracted pair
    ([lat=lon=None] when the suffix is neither), for a given
    [_coords_from_kml]. *)
Definition extract_with
    (coords_from_kml : element -> py (option float * option float))
    (src : source) : py (option float * option float) :=
  match src with
  | KmlSource root => r ← root; coords_from_kml r
  | PlanSource data => d ← data; _coords_from_plan d
  | OtherSource => Ret (None, None)
  end.

(** [_import_coords] once a file was chosen. *)
Definition import_coords_with
    (coords_from_kml : element -> py (option float * option float))
    (src : source) : import_outcome :=
  match extract_with coords_from_kml src with
  | Raise e => ImportFailed e
  | Ret (Some lat, Some lon) => finish_import lat lon
  | Ret _ => NotFound
  end.
End CoordinateImport.

(** The two generations of the program differ in [_coords_from_kml]. *)
Module Sim.
Section Sim.
Context `{PF : PyFloat}.

Definition _coords_from_kml (root : element) : py (option float * option float) :=
  point_coords (find_point root).

Definition _import_coords : source -> import_outcome :=
  import_coords_with _coords_from_kml.
End Sim.
End Sim.

Module V3.
Section V3.
Context `{PF : PyFloat}.

Definition _coords_from_kml (root : element) : py (option float * option float) :=
  match find_point root with
  | None =>
      r ← scan_coordinates (iter root);
      match r with
      | Some (la, lo) => Ret (Some la, Some lo)
      | None => Ret (None, None)
      end
  | Some pt => point_coords (Some pt)
  end.

Definition _import_coords : source -> import_outcome :=
  import_coords_with _coords_from_kml.
End V3.
End V3.

(** ** Vocabulary of the statements *)

Section Vocabulary.
Context `{PF : PyFloat}.

(** The altitude the code stores for index [i], arrays permitting. *)
Definition altitude_at (alt : option (list cell)) (i : nat) : option float :=
  match alt with
  | None => Some 0%float
  | Some a =>
      match a !! i with
      | Some z => Some (default 0%float (f z 1))
      | None => None
      end
  end.

(** Arrays as pyulog delivers them: the fields of one topic have one
    length. *)
Definition aligned (lat lon : list cell) (alt : option (list cell)) : Prop :=
  length lon = length lat /\
  match alt with Some a => length a = length lat | None => True end.

(** The loop invariant behind the size bound: the kept samples are at
    least [downsample] indices apart, the last of them at [last]. *)
Definition spaced (downsample : Z) (i : nat) (coords : list sample) (last : Z) : Prop :=
  (coords = [] /\ last = - downsample) \/
  (coords <> [] /\ 0 <= last < Z.of_nat i /\
   (Z.of_nat (length coords) - 1) * downsample <= last).

(** The track read from the single topic [d] with scale [scale]: what
    lines 155-168 do once [rec], [lat], [lon], [alt] come from [d]. *)
Definition track_of_topic (d : topic) (scale : float)
    (downsample : Z) : py (list sample) :=
  match data d !! "lat", data d !! "lon" with
  | Some lat, Some lon =>
      coords ← extract_coords lat lon (data d !! "alt") scale downsample;
      match coords with
      | [] => Raise (RuntimeError no_samples_msg)
      | _ => Ret coords
      end
  | _, _ => Raise (RuntimeError no_topic_msg)
  end.

(** The sample [(lo, la, al)] is entry [i] of the latitude and longitude
    arrays of [d], each converted by [float] and divided by [scale]. *)
Definition scaled_from (d : topic) (scale : float) (c : sample) : Prop :=
  exists lat lon i x_lat x_lon v_lat v_lon,
    data d !! "lat" = Some lat /\ data d !! "lon" = Some lon /\
    lat !! i = Some x_lat /\ lon !! i = Some x_lon /\
    float_of_cell x_lat = Ret v_lat /\ float_of_cell x_lon = Ret v_lon /\
    c.1.2 = (v_lat / scale)%float /\ c.1.1 = (v_lon / scale)%float.

(** The altitude of entry [i] is missing (no altitude channel),
    unparseable or non-finite. *)
Definition altitude_unusable (alt : option (list cell)) (i : nat) : Prop :=
  alt = None \/
  exists a z, alt = Some a /\ a !! i = Some z /\
    ((exists e, float_of_cell z = Raise e) \/
     (exists v, float_of_cell z = Ret v /\ isfinite (v / 1) = false)).

(** The name the [k]-th conversion of the same log gets (k = 0 first),
    each conversion leaving its output in the directory. *)
Fixpoint nth_conversion_name (fuel : nat) (entries : gset string) (base : string)
    (k : nat) : option string :=
  match _unique_name fuel entries base with
  | None => None
  | Some n =>
      match k with
      | O => Some n
      | S k' => nth_conversion_name fuel ({[n]} ∪ entries) base k'
      end
  end.

(** Every character of [s] satisfies [p]. *)
Fixpoint string_forall (p : ascii -> bool) (s : string) : bool :=
  match s with
  | EmptyString => true
  | String c r => p c && string_forall p r
  end.

Definition not_comma (c : ascii) : bool := negb (bool_decide (c = ","%char)).



(** An element the coordinates scan of v3.py passes over: its tag does
    not contain "coordinates", or it has no text, or its text has no
    comma. *)
Definition passed_over (e : element) : Prop :=
  contains "coordinates" (tag_of e) = false \/
  text_of e = None \/ text_of e = Some "" \/
  exists t, text_of e = Some t /\ string_forall not_comma t = true.

(** The number of swap notices in a log. *)
Fixpoint swap_notices (log : list log_event) : nat :=
  match log with
  | [] => 0
  | SwapNotice :: rest => S (swap_notices rest)
  | _ :: rest => swap_notices rest
  end.

(** What the second [try] of [_coords_from_plan] makes of the value
    [php] of [plannedHomePosition] ([None]: the key is absent). *)
Definition home_result (php : option json) : py (option float * option float) :=
  match php with
  | Some (JArr (p0 :: p1 :: _)) =>
      match float_of_json p0, float_of_json p1 with
      | Ret x0, Ret x1 => Ret (Some x0, Some x1)
      | _, _ => Ret (None, None)
      end
  | _ => Ret (None, None)
  end.

End Vocabulary.

(** ** Vehicle targets ([_get_vehicle_targets], [_select_px4_dir], sim.py) *)

(** One entry [d] of [path.iterdir()]: [d.name], [d.is_dir()] and
    [(d / "default.cmake").exists()]. *)
Record dir_entry := DirEntry {
  entry_name : string;
  entry_is_dir : bool;
  entry_has_default_cmake : bool
}.

Definition default_target : string := "gazebo_typhoon_h480".

(** The test of the loop: [d.is_dir() and (d / "default.cmake").exists()]. *)
Definition qualifies (d : dir_entry) : Prop :=
  entry_is_dir d && entry_has_default_cmake d.

(** The list [targets] at the end of the loop. *)
Definition listed_targets (entries : list dir_entry) : list string :=
  (fun d => "gazebo_" +:+ entry_name d) <$>
  filter (fun d => entry_is_dir d && entry_has_default_cmake d) entries.

(** [_get_vehicle_targets(px4_dir)]; [sitl] is the listing of
    [px4_dir/boards/px4/sitl] in the order [iterdir] yields it, [None]
    when that is not a directory.  [sorted] on strings is the sorted
    rearrangement by code points. *)
Definition _get_vehicle_targets (sitl : option (list dir_entry)) : list string :=
  match sitl with
  | None => [default_target]
  | Some entries =>
      let targets := listed_targets entries in
      match targets with
      | [] => [default_target]
      | _ => merge_sort String.le targets
      end
  end.

(** The end of [_select_px4_dir] for a chosen folder [d] ([if d:]):
    the new values of [px4_dir_var], of the combo box and of
    [vehicle_var]; [None] when nothing was chosen. *)
Definition _select_px4_dir (d : string) (sitl : option (list dir_entry))
    (vehicle : string) : option (string * list string * string) :=
  if decide (d = "") then None
  else
    let targets := _get_vehicle_targets sitl in
    let vehicle' :=
      if bool_decide (vehicle ∉ targets) && bool_decide (targets <> [])
      then default vehicle (head targets)
      else vehicle in
    Some (d, targets, vehicle').

(** ** Launch validation ([_start], v3.py) *)

(** [s.replace(",", ".")] *)
Fixpoint replace_comma (s : string) : string :=
  match s with
  | EmptyString => EmptyString
  | String c r =>
      String (if decide (c = ","%char) then "."%char else c) (replace_comma r)
  end.

(** How [_start] of v3.py ends. *)
Inductive start_outcome :=
  | AlreadyRunning           (* "Simulation is already running." *)
  | InvalidFolder            (* "Invalid Docker Project Folder." *)
  | InvalidNumeric           (* "Invalid numeric inputs." *)
  | Started (proj_dir lat lon alt speed : string) (swap_warning : bool).
      (* config saved, [_run_start_sequence] started with these values *)

Module V3Start.
Section V3Start.
Context `{PF : PyFloat}.

(** [_start] of v3.py: [is_dir] is [Path(...).is_dir()], the [*_var]
    arguments are what the form fields hold. *)
Definition _start (is_running : bool) (is_dir : string -> bool)
    (proj_dir_var lat_var lon_var alt_var speed_var : string) : start_outcome :=
  if is_running then AlreadyRunning
  else
    let proj_dir := strip proj_dir_var in
    if decide (proj_dir = "") then InvalidFolder
    else if negb (is_dir proj_dir) then InvalidFolder
    else
      let lat := strip (replace_comma lat_var) in
      let lon := strip (replace_comma lon_var) in
      let alt := strip (replace_comma alt_var) in
      let speed := strip speed_var in
      match (x_lat ← float_of_text lat; x_lon ← float_of_text lon;
             Ret (x_lat <? x_lon)%float) with
      | Raise _ => InvalidNumeric
      | Ret true => Started proj_dir lon lat alt speed true
      | Ret false => Started proj_dir lat lon alt speed false
      end.
End V3Start.
End V3Start.

(** ** Further vocabulary of the statements *)

Section FurtherVocabulary.
Context `{PF : PyFloat}.

(** The three components of a sample are finite numbers. *)
Definition finite_sample (c : sample) : Prop :=
  isfinite c.1.1 = true /\ isfinite c.1.2 = true /\ isfinite c.2 = true.

(** The indices of [l] increase, the first at least [downsample] after
    [last], each next one at least [downsample] after the one before. *)
Fixpoint apart_from (downsample : Z) (last : Z) (l : list nat) : Prop :=
  match l with
  | [] => True
  | j :: rest =>
      last + downsample <= Z.of_nat j /\ apart_from downsample (Z.of_nat j) rest
  end.

(** The indices below [n] that are multiples of [downsample]. *)
Definition stride_indices (downsample : Z) (n : nat) : list nat :=
  filter (fun i => Z.of_nat i mod downsample = 0) (seq 0 n).

End FurtherVocabulary.

(** The value of [plannedHomePosition] (or its absence) is not a list of
    two or more entries. *)
Definition short_home (php : option json) : Prop :=
  match php with
  | Some (JArr (_ :: _ :: _)) => False
  | _ => True
  end.

(** A decoded plan that offers no coordinates: not an object, or without
    [mission], or with a mission that has no items and no usable
    [plannedHomePosition]. *)
Definition plan_without_coordinates (data : json) : Prop :=
  match data with
  | JObj top =>
      match assoc "mission" top with
      | None => True
      | Some (JObj mkv) =>
          (assoc "items" mkv = None \/ assoc "items" mkv = Some (JArr [])) /\
          short_home (assoc "plannedHomePosition" mkv)
      | Some _ => True
      end
  | _ => True
  end.

(** ** Further sample inputs *)

(** A log whose global-position topic has no [lat] field, next to a
    complete GPS-position topic. *)
Definition shadowed_log : list topic :=
  [Topic "vehicle_global_position" (<["alt" := [CFloat 400%float]]> ∅);
   Topic "vehicle_gps_position"
     (<["lat" := [CInt 473977420]]> (<["lon" := [CInt 85455940]]> ∅))].


(** A track of two points without altitudes, and no Point. *)
Definition pair_coordinates : element :=
  Element (kml_ns +:+ "coordinates") (Some "8.5,47.25 8.75,47.5") [].
Definition pair_string : element :=
  Element (kml_ns +:+ "LineString") None [pair_coordinates].
Definition pair_doc : element :=
  Element (kml_ns +:+ "kml") None [pair_string].

(** A track of two points with altitudes, and no Point. *)
Definition track_coordinates : element :=
  Element (kml_ns +:+ "coordinates") (Some " 8.5,47.25,400 8.75,47.5,410 ") [].
Definition track_string : element :=
  Element (kml_ns +:+ "LineString") None [track_coordinates].
Definition track_doc : element :=
  Element (kml_ns +:+ "kml") None [track_string].

(** A document with a named placemark and no geometry. *)
Definition empty_doc : element :=
  Element (kml_ns +:+ "kml") None
    [Element (kml_ns +:+ "Placemark") None
       [Element (kml_ns +:+ "name") (Some "home") []]].




(** Two listings of one sitl directory. *)
Definition sitl_listing : list dir_entry :=
  [DirEntry "typhoon_h480" true true; DirEntry "README.md" false false;
   DirEntry "iris" true true; DirEntry "build" true false].
Definition sitl_listing' : list dir_entry :=
  [DirEntry "README.md" false false; DirEntry "typhoon_h480" true true;
   DirEntry "iris" true true; DirEntry "build" true false].

(** ** Sample inputs

    The values of CPython's [float] on the strings and integers used in
    the examples below; every other input is rejected here. *)
Definition sample_float_of_str (s : string) : option float :=
  if decide (s = "8.5") then Some 8.5%float
  else if decide (s = "47.25") then Some 47.25%float
  else if decide (s = "400") then Some 400%float
  else None.

Definition sample_float_of_int (n : Z) : option float :=
  if (0 <=? n) && (n <? 2 ^ 53) then Some (PrimFloat.of_uint63 (Uint63.of_Z n))
  else None.

Definition sample_builtins : PyFloat :=
  {| float_of_str := sample_float_of_str; float_of_int := sample_float_of_int |}.

(** Twelve global-position samples; the longitude at index 5 is infinite. *)
Definition lat12 : list cell :=
  map (fun i => CFloat (PrimFloat.of_uint63 (Uint63.of_Z (Z.of_nat i)))) (seq 0 12).
Definition lon12 : list cell :=
  <[5%nat := CFloat infinity]>
    (map (fun i => CFloat (PrimFloat.of_uint63 (Uint63.of_Z (100 + Z.of_nat i)))) (seq 0 12)).
Definition alt12 : list cell := replicate 12 (CFloat 30%float).

Definition topic12 : topic :=
  Topic "vehicle_global_position"
    (<["lat" := lat12]> (<["lon" := lon12]> (<["alt" := alt12]> ∅))).
Definition log12 : list topic := [Topic "vehicle_attitude" ∅; topic12].

(** A GPS-only log with one sample, integers scaled by 1e7, no altitude. *)
Definition gps_log : list topic :=
  [Topic "vehicle_gps_position"
     (<["lat" := [CInt 473977420]]> (<["lon" := [CInt 85455940]]> ∅))].

(** A log whose only position sample has a NaN latitude. *)
Definition nan_log : list topic :=
  [Topic "vehicle_global_position"
     (<["lat" := [CFloat nan]]> (<["lon" := [CFloat 8.5%float]]>
        (<["alt" := [CFloat 400%float]]> ∅)))].

(** Three finite global-position samples. *)
Definition log3 : list topic :=
  [Topic "vehicle_global_position"
     (<["lat" := [CFloat 47.25%float; CFloat 47.5%float; CFloat 47.75%float]]>
        (<["lon" := [CFloat 8.5%float; CFloat 8.25%float; CFloat 8%float]]> ∅))].

(** A Placemark with a Point, coordinates in file order lon,lat,alt. *)
Definition point_coordinates : element :=
  Element (kml_ns +:+ "coordinates") (Some "8.5,47.25,400") [].
Definition point_element : element :=
  Element (kml_ns +:+ "Point") None [point_coordinates].
Definition point_doc : element :=
  Element (kml_ns +:+ "kml") None
    [Element (kml_ns +:+ "Document") None
       [Element (kml_ns +:+ "Placemark") None
          [Element (kml_ns +:+ "name") (Some "Home") []; point_element]]].

(** A track document: a LineString and no Point. *)
Definition line_coordinates : element :=
  Element (kml_ns +:+ "coordinates") (Some " 8.5,47.25,400 ") [].
Definition line_string : element :=
  Element (kml_ns +:+ "LineString") None [line_coordinates].
Definition line_placemark : element :=
  Element (kml_ns +:+ "Placemark") None [line_string].
Definition line_doc : element :=
  Element (kml_ns +:+ "kml") None [line_placemark].

(** A plan with only a planned home position. *)
Definition home_plan (lat lon : float) : json :=
  JObj [("fileType", JStr "Plan");
        ("mission", JObj [("items", JArr []);
                          ("plannedHomePosition", JArr [JFloat lat; JFloat lon; JInt 400])])].

(** A plan whose second item has both fields, one of them null; the
    third item and the planned home position are well formed. *)
Definition bad_item_plan : json :=
  JObj [("mission",
         JObj [("items",
                JArr [JObj [("command", JInt 22)];
                      JObj [("param5", JNull); ("param6", JFloat 8.5)];
                      JObj [("param5", JFloat 47.5); ("param6", JFloat 8.25)]]);
               ("plannedHomePosition", JArr [JFloat 47.25; JFloat 8.5; JInt 400])])].

(** * Properties *)

(** ** The fallback extractor *)

Section FallbackFacts.
Context `{PF : PyFloat}.

(** [f] rejects exactly the unparseable and the non-finite. *)
Lemma f_None (x : cell) (s : float) :
  f x s = None <->
  (exists e, float_of_cell x = Raise e) \/
  (exists v, float_of_cell x = Ret v /\ isfinite (v / s) = false).
Proof.
  unfold f. destruct (float_of_cell x) as [v|e]; simpl.
  - destruct (isfinite (v / s)) eqn:E; split.
    + discriminate.
    + intros [[e He]|[w [Hw Hfin]]]; [discriminate|].
      injection Hw as <-. congruence.
    + intros _. right. eauto.
    + reflexivity.
  - split; [intros _; left; eauto | reflexivity].
Qed.

(** What [f] accepts is the quotient by the scale. *)
Lemma f_Some (x : cell) (s v : float) :
  f x s = Some v ->
  exists v0, float_of_cell x = Ret v0 /\ v = (v0 / s)%float /\ isfinite v = true.
Proof.
  unfold f. destruct (float_of_cell x) as [v0|e]; [|discriminate].
  destruct (isfinite (v0 / s)) eqn:E; [|discriminate].
  intros [= <-]. eauto.
Qed.

Lemma sample_at_in_range lat lon alt scale i x y al :
  lat !! i = Some x -> lon !! i = Some y -> altitude_at alt i = Some al ->
  sample_at lat lon alt scale i =
    Ret (match f x scale, f y scale with
         | Some la, Some lo => Some (lo, la, al)
         | _, _ => None
         end).
Proof.
  intros Hx Hy Hal. unfold sample_at, py_index. rewrite Hx, Hy. simpl.
  unfold altitude_at in Hal. destruct alt as [a|]; simpl.
  - unfold py_index. destruct (a !! i) as [z|]; [|discriminate]. simpl.
    injection Hal as <-.
    destruct (f x scale), (f y scale), (f z 1); reflexivity.
  - injection Hal as <-.
    destruct (f x scale), (f y scale); reflexivity.
Qed.

Lemma aligned_lookup lat lon alt i :
  aligned lat lon alt -> (i < length lat)%nat ->
  exists x y al,
    lat !! i = Some x /\ lon !! i = Some y /\ altitude_at alt i = Some al.
Proof.
  intros [Hlon Halt] Hi.
  destruct (lookup_lt_is_Some_2 lat i Hi) as [x Hx].
  destruct (lookup_lt_is_Some_2 lon i ltac:(lia)) as [y Hy].
  exists x, y. unfold altitude_at. destruct alt as [a|].
  - destruct (lookup_lt_is_Some_2 a i ltac:(lia)) as [z Hz].
    rewrite Hz. eauto.
  - eauto.
Qed.

Lemma aligned_sample_at lat lon alt scale i :
  aligned lat lon alt -> (i < length lat)%nat ->
  exists r, sample_at lat lon alt scale i = Ret r.
Proof.
  intros Hal Hi.
  destruct (aligned_lookup _ _ _ _ Hal Hi) as (x & y & al & Hx & Hy & Ha).
  rewrite (sample_at_in_range _ _ _ _ _ _ _ _ Hx Hy Ha). eauto.
Qed.

Lemma track_loop_spaced lat lon alt scale downsample n :
  1 <= downsample ->
  forall i coords last track,
    spaced downsample i coords last ->
    track_loop lat lon alt scale downsample n i coords last = Ret track ->
    exists last', spaced downsample (i + n) track last'.
Proof.
  intros HS. induction n as [|n IH]; intros i coords last track Hinv; simpl.
  - intros [= <-]. exists last. by rewrite Nat.add_0_r.
  - replace (i + S n)%nat with (S i + n)%nat by lia.
    assert (spaced downsample (S i) coords last) as Hskip.
    { destruct Hinv as [?|(? & ? & ?)]; [by left|right]. split_and!; try done; lia. }
    destruct (Z.ltb_spec (Z.of_nat i - last) downsample) as [Hlt|Hge].
    + by apply IH.
    + destruct (sample_at lat lon alt scale i) as [[c|]|e]; simpl.
      * apply IH. right. split; [by destruct coords|].
        rewrite length_app. simpl. split; [lia|].
        destruct Hinv as [[-> ->]|(? & ? & ?)]; simpl; lia.
      * by apply IH.
      * discriminate.
Qed.

(** The track never has more than [ceil(N/S)] samples. *)
Lemma extract_coords_bound lat lon alt scale downsample track :
  1 <= downsample ->
  extract_coords lat lon alt scale downsample = Ret track ->
  Z.of_nat (length track) <= (Z.of_nat (length lat) + downsample - 1) / downsample.
Proof.
  intros HS Hrun. unfold extract_coords in Hrun.
  destruct (track_loop_spaced _ _ _ _ _ _ HS _ _ _ _ (or_introl (conj eq_refl eq_refl)) Hrun)
    as [last' Hinv].
  simpl in Hinv.
  destruct Hinv as [[-> _]|(Hne & Hlast & Hlen)].
  - simpl. apply Z.div_pos; lia.
  - apply Z.div_le_lower_bound; [lia|]. nia.
Qed.

(** One iteration, by the outcome of the stride test. *)
Lemma track_loop_skip lat lon alt scale downsample n i coords last :
  Z.of_nat i - last < downsample ->
  track_loop lat lon alt scale downsample (S n) i coords last =
    track_loop lat lon alt scale downsample n (S i) coords last.
Proof.
  intros Hlt. cbn [track_loop].
  by destruct (Z.ltb_spec (Z.of_nat i - last) downsample) as [_|?]; [|lia].
Qed.

Lemma track_loop_visit lat lon alt scale downsample n i coords last r :
  downsample <= Z.of_nat i - last ->
  sample_at lat lon alt scale i = Ret r ->
  track_loop lat lon alt scale downsample (S n) i coords last =
    match r with
    | None => track_loop lat lon alt scale downsample n (S i) coords last
    | Some c =>
        track_loop lat lon alt scale downsample n (S i) (coords ++ [c]) (Z.of_nat i)
    end.
Proof.
  intros Hge Hs. cbn [track_loop].
  destruct (Z.ltb_spec (Z.of_nat i - last) downsample) as [?|_]; [lia|].
  by rewrite Hs.
Qed.

Lemma visited_loop_skip lat lon alt scale downsample n i last :
  Z.of_nat i - last < downsample ->
  visited_loop lat lon alt scale downsample (S n) i last =
    visited_loop lat lon alt scale downsample n (S i) last.
Proof.
  intros Hlt. cbn [visited_loop].
  by destruct (Z.ltb_spec (Z.of_nat i - last) downsample) as [_|?]; [|lia].
Qed.

Lemma visited_loop_visit lat lon alt scale downsample n i last r :
  downsample <= Z.of_nat i - last ->
  sample_at lat lon alt scale i = Ret r ->
  visited_loop lat lon alt scale downsample (S n) i last =
    i :: match r with
         | None => visited_loop lat lon alt scale downsample n (S i) last
         | Some _ => visited_loop lat lon alt scale downsample n (S i) (Z.of_nat i)
         end.
Proof.
  intros Hge Hs. cbn [visited_loop].
  destruct (Z.ltb_spec (Z.of_nat i - last) downsample) as [?|_]; [lia|].
  rewrite Hs. by destruct r.
Qed.

(** Without an exception the loop runs to its end and only appends. *)
Lemma track_loop_total lat lon alt scale downsample :
  aligned lat lon alt ->
  forall n i coords last,
    (i + n <= length lat)%nat ->
    exists rest,
      track_loop lat lon alt scale downsample n i coords last = Ret (coords ++ rest).
Proof.
  intros Hal. induction n as [|n IH]; intros i coords last Hn; simpl.
  - exists []. by rewrite app_nil_r.
  - destruct (Z.of_nat i - last <? downsample).
    + apply IH. lia.
    + destruct (aligned_sample_at lat lon alt scale i Hal ltac:(lia)) as [[c|] ->]; simpl.
      * destruct (IH (S i) (coords ++ [c]) (Z.of_nat i) ltac:(lia)) as [rest ->].
        exists (c :: rest). by rewrite <-app_assoc.
      * apply IH. lia.
Qed.

(** While nothing is kept, every index is inspected. *)
Lemma track_loop_all_rejected lat lon alt scale downsample n :
  forall i,
    (forall j, (i <= j < i + n)%nat -> sample_at lat lon alt scale j = Ret None) ->
    track_loop lat lon alt scale downsample n i [] (- downsample) = Ret [].
Proof.
  induction n as [|n IH]; intros i Hrej; simpl; [done|].
  destruct (Z.ltb_spec (Z.of_nat i - - downsample) downsample) as [Hlt|_]; [lia|].
  rewrite Hrej by lia. simpl. apply IH. intros j Hj. apply Hrej. lia.
Qed.
End FallbackFacts.

(** ** Output naming *)

Section NamingFacts.

Lemma string_app_cons c (s t : string) : String c s +:+ t = String c (s +:+ t).
Proof. reflexivity. Qed.

Lemma string_app_nil_l (t : string) : "" +:+ t = t.
Proof. reflexivity. Qed.

Lemma string_length_app (s t : string) :
  String.length (s +:+ t) = (String.length s + String.length t)%nat.
Proof.
  induction s as [|c s IH]; [done|].
  rewrite string_app_cons. simpl. by rewrite IH.
Qed.

Lemma string_app_nil_r (s : string) : s +:+ "" = s.
Proof.
  induction s as [|c s IH]; [done|]. by rewrite string_app_cons, IH.
Qed.

(** Appending the same tail is injective. *)
Lemma string_app_inj_r (s1 s2 t : string) : s1 +:+ t = s2 +:+ t -> s1 = s2.
Proof.
  revert s2. induction s1 as [|c s1 IH]; intros [|d s2] Heq;
    rewrite ?string_app_cons, ?string_app_nil_l in Heq.
  - done.
  - apply (f_equal String.length) in Heq. simpl in Heq.
    rewrite string_length_app in Heq. lia.
  - apply (f_equal String.length) in Heq. simpl in Heq.
    rewrite string_length_app in Heq. lia.
  - injection Heq as -> Heq. f_equal. by apply IH.
Qed.

(** Distinct counters give distinct candidates. *)
Global Instance candidate_inj stm suf : Inj (=) (=) (candidate stm suf).
Proof.
  intros i j Heq. unfold candidate in Heq.
  apply (inj (String.app stm)) in Heq.
  apply (inj (String.app "-")) in Heq.
  apply string_app_inj_r in Heq.
  by apply (inj pretty) in Heq.
Qed.

(** What [fuel] iterations of the loop establish. *)
Lemma unique_name_loop_spec fuel entries stm suf :
  forall i,
    match unique_name_loop fuel entries stm suf i with
    | Some n =>
        exists k, (i <= k < i + fuel)%nat /\ n = candidate stm suf k /\
                  (n ∉ entries) /\
                  (forall j, (i <= j < k)%nat -> candidate stm suf j ∈ entries)
    | None =>
        forall j, (i <= j < i + fuel)%nat -> candidate stm suf j ∈ entries
    end.
Proof.
  induction fuel as [|fuel IH]; intros i; simpl.
  - intros j Hj. lia.
  - destruct (decide (candidate stm suf i ∈ entries)) as [Hin|Hout].
    + specialize (IH (S i)).
      destruct (unique_name_loop fuel entries stm suf (S i)) as [n|].
      * destruct IH as (k & Hk & -> & Hfree & Hbelow).
        exists k. split_and!; [lia..|done|done|].
        intros j Hj. destruct (decide (j = i)) as [->|]; [done|].
        apply Hbelow. lia.
      * intros j Hj. destruct (decide (j = i)) as [->|]; [done|].
        apply IH. lia.
    + exists i. split_and!; [lia..|done|done|]. intros j Hj. lia.
Qed.

(** A finite directory cannot hold [fuel] candidates in a row once
    [fuel] exceeds its size. *)
Lemma candidates_exhaust (entries : gset string) stm suf i fuel :
  (forall j, (i <= j < i + fuel)%nat -> candidate stm suf j ∈ entries) ->
  (fuel <= size entries)%nat.
Proof.
  intros Hall.
  assert (list_to_set (candidate stm suf <$> seq i fuel) ⊆ entries) as Hsub.
  { intros n Hn. apply elem_of_list_to_set, list_elem_of_fmap in Hn
      as (j & -> & Hj). apply elem_of_seq in Hj. apply Hall. lia. }
  apply subseteq_size in Hsub.
  rewrite size_list_to_set in Hsub.
  - by rewrite length_fmap, length_seq in Hsub.
  - apply NoDup_fmap_2; [apply _|apply NoDup_seq].
Qed.

Lemma unique_name_loop_terminates fuel (entries : gset string) stm suf i :
  (size entries < fuel)%nat ->
  is_Some (unique_name_loop fuel entries stm suf i).
Proof.
  intros Hfuel. pose proof (unique_name_loop_spec fuel entries stm suf i) as Hspec.
  destruct (unique_name_loop fuel entries stm suf i); [by eexists|].
  apply candidates_exhaust in Hspec. lia.
Qed.

Lemma unique_name_terminates fuel (entries : gset string) base :
  (size entries < fuel)%nat -> is_Some (_unique_name fuel entries base).
Proof.
  intros Hfuel. unfold _unique_name. case_decide; [|by eexists].
  by apply unique_name_loop_terminates.
Qed.

(** The returned name is not in the directory. *)
Lemma unique_name_fresh fuel (entries : gset string) base n :
  _unique_name fuel entries base = Some n -> n ∉ entries.
Proof.
  unfold _unique_name. case_decide as Hbase; [|by intros [= <-]].
  intros Hloop.
  pose proof (unique_name_loop_spec fuel entries (stem base) (suffix base) 1) as Hspec.
  rewrite Hloop in Hspec. by destruct Hspec as (k & _ & _ & Hfree & _).
Qed.




End NamingFacts.

(** ** The fallback extractor: claims *)

Section FallbackClaims.
Context `{PF : PyFloat}.

Lemma sample_at_scaled lat lon alt scale i c :
  sample_at lat lon alt scale i = Ret (Some c) ->
  exists x_lat x_lon v_lat v_lon,
    lat !! i = Some x_lat /\ lon !! i = Some x_lon /\
    float_of_cell x_lat = Ret v_lat /\ float_of_cell x_lon = Ret v_lon /\
    c.1.2 = (v_lat / scale)%float /\ c.1.1 = (v_lon / scale)%float.
Proof.
  unfold sample_at, py_index.
  destruct (lat !! i) as [x|]; [|discriminate].
  destruct (lon !! i) as [y|]; [|discriminate]. simpl.
  destruct (match alt with
            | Some a => _
            | None => _
            end) as [al|e]; [|discriminate]. simpl.
  destruct (f x scale) as [la|] eqn:Hla; [|discriminate].
  destruct (f y scale) as [lo|] eqn:Hlo; [|discriminate].
  intros [= <-]. simpl.
  apply f_Some in Hla as (v_lat & ? & ? & _).
  apply f_Some in Hlo as (v_lon & ? & ? & _).
  exists x, y, v_lat, v_lon. done.
Qed.

Lemma track_loop_scaled lat lon alt scale downsample (P : sample -> Prop) :
  (forall i c, sample_at lat lon alt scale i = Ret (Some c) -> P c) ->
  forall n i coords last track,
    Forall P coords ->
    track_loop lat lon alt scale downsample n i coords last = Ret track ->
    Forall P track.
Proof.
  intros HP. induction n as [|n IH]; intros i coords last track Hc; simpl.
  - by intros [= <-].
  - destruct (Z.of_nat i - last <? downsample); [by apply IH|].
    destruct (sample_at lat lon alt scale i) as [[c|]|e] eqn:Hs; simpl.
    + apply IH. apply Forall_app. split; [done|]. repeat constructor. by eapply HP.
    + by apply IH.
    + discriminate.
Qed.

Lemma find_topic_absent n (data_list : list topic) :
  (forall t, t ∈ data_list -> name t <> n) -> find_topic n data_list = None.
Proof.
  induction data_list as [|d rest IH]; intros Hall; [done|].
  simpl. destruct (decide (name d = n)) as [Heq|_].
  - exfalso. apply (Hall d); [left|exact Heq].
  - apply IH. intros t Ht. apply Hall. by right.
Qed.

Lemma find_topic_first n (pre : list topic) d post :
  Forall (fun t => name t <> n) pre -> name d = n ->
  find_topic n (pre ++ d :: post) = Some d.
Proof.
  intros Hpre Hd. induction Hpre as [|t pre Ht _ IH]; simpl.
  - by rewrite decide_True.
  - by rewrite decide_False.
Qed.

Lemma first_topic_split n (data_list : list topic) t :
  t ∈ data_list -> name t = n ->
  exists pre d post,
    data_list = pre ++ d :: post /\
    Forall (fun t' => name t' <> n) pre /\ name d = n.
Proof.
  induction data_list as [|d rest IH]; intros Hin Hn.
  - by apply elem_of_nil in Hin.
  - destruct (decide (name d = n)) as [Hd|Hd].
    + exists [], d, rest. done.
    + apply elem_of_cons in Hin as [->|Hin]; [done|].
      destruct (IH Hin Hn) as (pre & d' & post & -> & Hpre & Hd').
      exists (d :: pre), d', post. split; [done|]. split; [|done].
      by constructor.
Qed.

Lemma extract_track_of_selection data_list downsample :
  extract_track data_list downsample =
    match find_topic "vehicle_global_position" data_list with
    | Some d => track_of_topic d 1 downsample
    | None =>
        match find_topic "vehicle_gps_position" data_list with
        | Some d => track_of_topic d 1e7 downsample
        | None => Raise (RuntimeError no_topic_msg)
        end
    end.
Proof.
  unfold extract_track, select_topic, track_of_topic.
  destruct (find_topic "vehicle_global_position" data_list) as [d|].
  { simpl. by destruct (data d !! "lat"), (data d !! "lon"). }
  destruct (find_topic "vehicle_gps_position" data_list) as [d|]; [|done].
  simpl. by destruct (data d !! "lat"), (data d !! "lon").
Qed.

(** C4. Fallback extraction reads exactly one position topic.  Whenever
    the log holds a topic named vehicle_global_position, wherever it
    stands in the log, the track is the one of the first such topic with
    scale 1.0; when the log holds none but holds a topic named
    vehicle_gps_position, the track is the one of the first such topic
    with scale 1e7; when no topic of the log bears either name, the
    no-position-topic error is raised; and the latitude and longitude of
    every sample of a track are array entries of its topic divided by the
    scale. *)
Theorem fallback_reads_one_topic (data_list : list topic) (downsample : Z) :
  (forall t, t ∈ data_list -> name t = "vehicle_global_position" ->
     exists pre d post,
       data_list = pre ++ d :: post /\
       Forall (fun t' => name t' <> "vehicle_global_position") pre /\
       name d = "vehicle_global_position" /\
       extract_track data_list downsample = track_of_topic d 1 downsample)
  /\ ((forall t, t ∈ data_list -> name t <> "vehicle_global_position") ->
      forall t, t ∈ data_list -> name t = "vehicle_gps_position" ->
        exists pre d post,
          data_list = pre ++ d :: post /\
          Forall (fun t' => name t' <> "vehicle_gps_position") pre /\
          name d = "vehicle_gps_position" /\
          extract_track data_list downsample = track_of_topic d 1e7 downsample)
  /\ ((forall t, t ∈ data_list ->
         name t <> "vehicle_global_position" /\
         name t <> "vehicle_gps_position") ->
      extract_track data_list downsample = Raise (RuntimeError no_topic_msg))
  /\ (forall d scale track,
        track_of_topic d scale downsample = Ret track ->
        Forall (scaled_from d scale) track).
Proof.
  split; [|split; [|split]].
  - intros t Hin Hn.
    destruct (first_topic_split _ _ _ Hin Hn) as (pre & d & post & Hl & Hpre & Hd).
    exists pre, d, post. split; [done|]. split; [done|]. split; [done|].
    rewrite extract_track_of_selection, Hl.
    by rewrite (find_topic_first _ _ _ _ Hpre Hd).
  - intros Hnone t Hin Hn.
    destruct (first_topic_split _ _ _ Hin Hn) as (pre & d & post & Hl & Hpre & Hd).
    exists pre, d, post. split; [done|]. split; [done|]. split; [done|].
    rewrite extract_track_of_selection.
    rewrite (find_topic_absent _ _ Hnone), Hl.
    by rewrite (find_topic_first _ _ _ _ Hpre Hd).
  - intros Hnone. rewrite extract_track_of_selection.
    rewrite find_topic_absent; [|intros t Ht; by apply Hnone].
    rewrite find_topic_absent; [done|intros t Ht; by apply Hnone].
  - intros d scale track. unfold track_of_topic.
    destruct (data d !! "lat") as [lat|] eqn:Hlat; [|discriminate].
    destruct (data d !! "lon") as [lon|] eqn:Hlon; [|discriminate].
    destruct (extract_coords lat lon (data d !! "alt") scale downsample)
      as [coords|e] eqn:Hrun; [|discriminate].
    simpl. destruct coords as [|c coords]; [discriminate|].
    intros [= <-]. unfold extract_coords in Hrun.
    eapply track_loop_scaled; [|constructor|exact Hrun].
    intros i c' Hs. apply sample_at_scaled in Hs
      as (x_lat & x_lon & v_lat & v_lon & ? & ? & ? & ? & ? & ?).
    exists lat, lon, i, x_lat, x_lon, v_lat, v_lon. done.
Qed.
End FallbackClaims.

Lemma fallback_reads_one_topic_witness :
  (exists pre d post,
     log12 = pre ++ d :: post /\
     Forall (fun t' => name t' <> "vehicle_global_position") pre /\
     name d = "vehicle_global_position" /\
     extract_track (PF := sample_builtins) log12 5 =
       track_of_topic (PF := sample_builtins) d 1 5) /\
  (exists pre d post,
     gps_log = pre ++ d :: post /\
     Forall (fun t' => name t' <> "vehicle_gps_position") pre /\
     name d = "vehicle_gps_position" /\
     extract_track (PF := sample_builtins) gps_log 5 =
       track_of_topic (PF := sample_builtins) d 1e7 5) /\
  extract_track (PF := sample_builtins) [Topic "vehicle_attitude" ∅] 5 =
    Raise (RuntimeError no_topic_msg) /\
  exists track,
    extract_track (PF := sample_builtins) gps_log 5 = Ret track /\
    length track = 1%nat /\
    Forall (scaled_from (PF := sample_builtins)
              (Topic "vehicle_gps_position"
                 (<["lat" := [CInt 473977420]]> (<["lon" := [CInt 85455940]]> ∅)))
              1e7) track.
Proof.
  split; [|split; [|split]].
  - apply (proj1 (fallback_reads_one_topic (PF := sample_builtins) log12 5) topic12).
    + apply elem_of_cons. right. apply elem_of_cons. by left.
    + reflexivity.
  - destruct (fallback_reads_one_topic (PF := sample_builtins) gps_log 5)
      as (_ & Hgps & _).
    unfold gps_log in *. eapply Hgps.
    + intros t Ht. apply list_elem_of_singleton in Ht as ->. discriminate.
    + apply list_elem_of_singleton. reflexivity.
    + reflexivity.
  - destruct (fallback_reads_one_topic (PF := sample_builtins)
                [Topic "vehicle_attitude" ∅] 5) as (_ & _ & Hnone & _).
    apply Hnone. intros t Ht. apply list_elem_of_singleton in Ht as ->.
    split; discriminate.
  - eexists. split; [vm_compute; reflexivity|]. split; [reflexivity|].
    destruct (fallback_reads_one_topic (PF := sample_builtins) gps_log 5)
      as (_ & _ & _ & Hscaled).
    apply Hscaled. vm_compute. reflexivity.
Defined.

Section FallbackLoopClaims.
Context `{PF : PyFloat}.

Lemma altitude_unusable_zero alt i :
  altitude_unusable alt i -> altitude_at alt i = Some 0%float.
Proof.
  intros [->|(a & z & -> & Hz & Hbad)]; [done|].
  unfold altitude_at. rewrite Hz.
  by rewrite (proj2 (f_None z 1) Hbad).
Qed.

(** C9. An iteration of the fallback loop that passes the stride test at
    an index whose altitude is missing, unparseable or non-finite keeps
    the sample with altitude 0.0 whenever latitude and longitude are both
    accepted by [f]; whatever the altitude, the sample is dropped only
    when the latitude or the longitude is rejected. *)
Theorem altitude_defaults_to_zero lat lon alt scale downsample n i coords last x y :
  lat !! i = Some x -> lon !! i = Some y ->
  downsample <= Z.of_nat i - last ->
  (altitude_unusable alt i ->
   track_loop lat lon alt scale downsample (S n) i coords last =
     match f x scale, f y scale with
     | Some la, Some lo =>
         track_loop lat lon alt scale downsample n (S i)
           (coords ++ [(lo, la, 0%float)]) (Z.of_nat i)
     | _, _ => track_loop lat lon alt scale downsample n (S i) coords last
     end)
  /\ (forall al, altitude_at alt i = Some al ->
        (sample_at lat lon alt scale i = Ret None <->
         f x scale = None \/ f y scale = None)).
Proof.
  intros Hx Hy Hguard. split.
  - intros Halt. apply altitude_unusable_zero in Halt.
    simpl. destruct (Z.ltb_spec (Z.of_nat i - last) downsample) as [?|_]; [lia|].
    rewrite (sample_at_in_range _ _ _ _ _ _ _ _ Hx Hy Halt).
    by destruct (f x scale), (f y scale).
  - intros al Hal. rewrite (sample_at_in_range _ _ _ _ _ _ _ _ Hx Hy Hal).
    destruct (f x scale), (f y scale); split; intros Hr;
      try discriminate; try (by left); try (by right); by destruct Hr.
Qed.

(** C5. When every position sample of the selected topic has a latitude
    or a longitude that [f] rejects, the fallback raises the empty-track
    error and leaves the output directory as it was, and the conversion
    that reached the fallback reports Failure with that error, the
    directory unchanged. *)
Theorem empty_track_is_failure data_list d lat lon alt scale basename tgt downsample dir :
  select_topic data_list = Some (Selection d (Some lat) (Some lon) alt scale) ->
  aligned lat lon alt ->
  (forall i x y, lat !! i = Some x -> lon !! i = Some y ->
                 f x scale = None \/ f y scale = None) ->
  _fallback_ulog_to_kml basename data_list tgt downsample dir =
    (Raise (RuntimeError no_samples_msg), dir)
  /\ (forall returncode rename_ok unlink_ok ulg_name,
        (if returncode =? 0 then dir !! "track.kml" else None) = None ->
        run (Ret returncode) rename_ok unlink_ok ulg_name (Ret data_list) dir =
          (Failure (RuntimeError no_samples_msg), dir)).
Proof.
  intros Hsel Hal Hbad.
  assert (forall S, extract_track data_list S = Raise (RuntimeError no_samples_msg)) as Hraise.
  { intros S. unfold extract_track. rewrite Hsel. unfold extract_coords.
    rewrite track_loop_all_rejected; [done|].
    intros j Hj.
    destruct (aligned_lookup _ _ _ j Hal ltac:(lia)) as (x & y & al & Hx & Hy & Ha).
    rewrite (sample_at_in_range _ _ _ _ _ _ _ _ Hx Hy Ha).
    destruct (Hbad j x y Hx Hy) as [-> | ->]; [done|].
    by destruct (f x scale). }
  split.
  - unfold _fallback_ulog_to_kml. by rewrite Hraise.
  - intros returncode rename_ok unlink_ok ulg_name Htool. unfold run.
    rewrite Htool.
    destruct (unique_name_terminates (S (size (dom dir))) (dom dir)
                (stem ulg_name +:+ ".kml") ltac:(lia)) as [name' ->].
    unfold _fallback_ulog_to_kml. by rewrite Hraise.
Qed.

(** C3. For a log whose global-position topic holds N samples, all with
    finite latitude and longitude, and a stride S >= 1: with N = 0 the
    fallback raises the empty-track error; otherwise it produces a track
    of at least one and at most ceil(N/S) samples, and the file it writes
    holds exactly the coordinates of that track. *)
Theorem fallback_track_size_and_file data_list d lat lon downsample basename tgt dir :
  find_topic "vehicle_global_position" data_list = Some d ->
  data d !! "lat" = Some lat -> data d !! "lon" = Some lon ->
  aligned lat lon (data d !! "alt") ->
  Forall (fun x => is_Some (f x 1)) lat ->
  Forall (fun y => is_Some (f y 1)) lon ->
  1 <= downsample ->
  (lat = [] ->
   _fallback_ulog_to_kml basename data_list tgt downsample dir =
     (Raise (RuntimeError no_samples_msg), dir))
  /\ (lat <> [] ->
      exists track,
        extract_track data_list downsample = Ret track /\
        (0 < length track)%nat /\
        Z.of_nat (length track) <=
          (Z.of_nat (length lat) + downsample - 1) / downsample /\
        _fallback_ulog_to_kml basename data_list tgt downsample dir =
          (Ret tt, <[tgt := FallbackTrack (track_file basename track)]> dir) /\
        ls_coords (track_file basename track) = track).
Proof.
  intros Hd Hlat Hlon Hal Hflat Hflon HS.
  assert (select_topic data_list =
          Some (Selection d (Some lat) (Some lon) (data d !! "alt") 1)) as Hsel.
  { unfold select_topic, select_from. by rewrite Hd, Hlat, Hlon. }
  split.
  - intros ->. unfold _fallback_ulog_to_kml, extract_track. by rewrite Hsel.
  - intros Hne.
    destruct lat as [|x0 lat']; [done|].
    destruct lon as [|y0 lon']; [by destruct Hal|].
    destruct (aligned_lookup _ _ _ 0%nat Hal ltac:(simpl; lia))
      as (x & y & al & [= <-] & [= <-] & Ha).
    apply Forall_cons_1 in Hflat as [[la Hla] _].
    apply Forall_cons_1 in Hflon as [[lo Hlo] _].
    pose proof (sample_at_in_range _ _ _ 1 _ _ _ _
                  (eq_refl : (x0 :: lat') !! 0%nat = Some x0)
                  (eq_refl : (y0 :: lon') !! 0%nat = Some y0) Ha) as Hs0.
    rewrite Hla, Hlo in Hs0.
    destruct (track_loop_total (x0 :: lat') (y0 :: lon') (data d !! "alt") 1
                downsample Hal (length lat') 1%nat [(lo, la, al)] 0 ltac:(simpl; lia))
      as [rest Hrest].
    assert (extract_coords (x0 :: lat') (y0 :: lon') (data d !! "alt") 1 downsample
            = Ret ((lo, la, al) :: rest)) as Hrun.
    { unfold extract_coords. change (length (x0 :: lat')) with (S (length lat')).
      rewrite track_loop_visit with (r := Some (lo, la, al));
        [exact Hrest | simpl; lia | exact Hs0]. }
    exists ((lo, la, al) :: rest).
    assert (extract_track data_list downsample = Ret ((lo, la, al) :: rest)) as Htrack.
    { unfold extract_track. rewrite Hsel, Hrun. done. }
    split_and!.
    + done.
    + simpl. lia.
    + by apply (extract_coords_bound _ _ _ _ _ _ HS Hrun).
    + unfold _fallback_ulog_to_kml. by rewrite Htrack.
    + done.
Qed.
End FallbackLoopClaims.

Lemma altitude_defaults_to_zero_witness :
  [CFloat 47.25%float] !! 0%nat = Some (CFloat 47.25%float) /\
  [CFloat 8.5%float] !! 0%nat = Some (CFloat 8.5%float) /\
  5 <= Z.of_nat 0 - -5 /\
  altitude_unusable (PF := sample_builtins) (Some [CFloat nan]) 0 /\
  track_loop (PF := sample_builtins)
    [CFloat 47.25%float] [CFloat 8.5%float] (Some [CFloat nan]) 1 5 1 0 [] (-5) =
    Ret [(8.5%float, 47.25%float, 0%float)].
Proof.
  assert (altitude_unusable (PF := sample_builtins) (Some [CFloat nan]) 0) as Hbad.
  { right. exists [CFloat nan], (CFloat nan). split_and!; [done..|].
    right. exists nan. split; reflexivity. }
  split_and!; [reflexivity|reflexivity|lia|exact Hbad|].
  rewrite (proj1 (altitude_defaults_to_zero (PF := sample_builtins)
                    [CFloat 47.25%float] [CFloat 8.5%float] (Some [CFloat nan])
                    1 5 0 0 [] (-5) (CFloat 47.25%float) (CFloat 8.5%float)
                    eq_refl eq_refl ltac:(lia)) Hbad).
  reflexivity.
Defined.

Lemma empty_track_is_failure_witness :
  _fallback_ulog_to_kml (PF := sample_builtins) "flight.ulg" nan_log "flight.kml" 5 ∅ =
    (Raise (RuntimeError no_samples_msg), ∅) /\
  run (PF := sample_builtins) (Ret 1) true true "flight.ulg" (Ret nan_log) ∅ =
    (Failure (RuntimeError no_samples_msg), ∅).
Proof.
  pose proof (empty_track_is_failure (PF := sample_builtins) nan_log
                (Topic "vehicle_global_position"
                   (<["lat" := [CFloat nan]]> (<["lon" := [CFloat 8.5%float]]>
                      (<["alt" := [CFloat 400%float]]> ∅))))
                [CFloat nan] [CFloat 8.5%float] (Some [CFloat 400%float]) 1
                "flight.ulg" "flight.kml" 5 ∅) as Hthm.
  destruct Hthm as [Hfallback Hrun].
  - vm_compute. reflexivity.
  - split; reflexivity.
  - intros [|i] x y; [|discriminate]. intros [= <-] _. by left.
  - split; [exact Hfallback|]. by apply Hrun.
Defined.

Lemma fallback_track_size_and_file_witness :
  exists track,
    extract_track (PF := sample_builtins) log3 2 = Ret track /\
    (0 < length track)%nat /\
    Z.of_nat (length track) <= (3 + 2 - 1) / 2 /\
    _fallback_ulog_to_kml (PF := sample_builtins) "flight.ulg" log3 "flight.kml" 2 ∅ =
      (Ret tt, <["flight.kml" := FallbackTrack (track_file "flight.ulg" track)]> ∅) /\
    ls_coords (track_file "flight.ulg" track) = track.
Proof.
  refine (proj2 (fallback_track_size_and_file (PF := sample_builtins) log3
            (Topic "vehicle_global_position"
               (<["lat" := [CFloat 47.25%float; CFloat 47.5%float; CFloat 47.75%float]]>
                  (<["lon" := [CFloat 8.5%float; CFloat 8.25%float; CFloat 8%float]]> ∅)))
            [CFloat 47.25%float; CFloat 47.5%float; CFloat 47.75%float]
            [CFloat 8.5%float; CFloat 8.25%float; CFloat 8%float]
            2 "flight.ulg" "flight.kml" ∅ _ _ _ _ _ _ _) _).
  - reflexivity.
  - vm_compute. reflexivity.
  - vm_compute. reflexivity.
  - split; [reflexivity|]. vm_compute. exact I.
  - repeat constructor; eexists; reflexivity.
  - repeat constructor; eexists; reflexivity.
  - lia.
  - discriminate.
Defined.

Section StrideClaim.
Context `{PF : PyFloat}.

(** C2 (amended). For a log whose global-position topic has 12 samples
    with a non-finite longitude at index 5, all other latitudes and
    longitudes finite except possibly the longitude at index 10, fallback
    extraction with stride 5 reads exactly the indices 0, 5, 6 and 11:
    the sample at index 5 is skipped, the stride is counted from the last
    kept sample, so index 6 is taken next, and the track holds exactly the
    samples of indices 0, 6 and 11, whether or not index 10 is valid. *)
Theorem stride_counts_from_last_kept data_list d lat lon :
  find_topic "vehicle_global_position" data_list = Some d ->
  data d !! "lat" = Some lat -> data d !! "lon" = Some lon ->
  length lat = 12%nat ->
  aligned lat lon (data d !! "alt") ->
  Forall (fun x => is_Some (f x 1)) lat ->
  (forall i y, i <> 5%nat -> i <> 10%nat -> lon !! i = Some y -> is_Some (f y 1)) ->
  (forall y, lon !! 5%nat = Some y -> f y 1 = None) ->
  visited lat lon (data d !! "alt") 1 5 = [0; 5; 6; 11]%nat /\
  exists c0 c6 c11,
    sample_at lat lon (data d !! "alt") 1 0 = Ret (Some c0) /\
    sample_at lat lon (data d !! "alt") 1 6 = Ret (Some c6) /\
    sample_at lat lon (data d !! "alt") 1 11 = Ret (Some c11) /\
    extract_track data_list 5 = Ret [c0; c6; c11].
Proof.
  intros Hd Hlat Hlon Hlen Hal Hflat Hflon Hbad.
  set (alt := data d !! "alt") in *.
  assert (forall i, (i < 12)%nat -> i <> 5%nat -> i <> 10%nat ->
                    exists c, sample_at lat lon alt 1 i = Ret (Some c)) as Hkeep.
  { intros i Hi H5 H10.
    destruct (aligned_lookup _ _ _ i Hal ltac:(lia)) as (x & y & al & Hx & Hy & Ha).
    rewrite (sample_at_in_range _ _ _ _ _ _ _ _ Hx Hy Ha).
    destruct (proj1 (Forall_lookup _ _) Hflat i x Hx) as [la ->].
    destruct (Hflon i y H5 H10 Hy) as [lo ->]. eauto. }
  assert (sample_at lat lon alt 1 5 = Ret None) as Hs5.
  { destruct (aligned_lookup _ _ _ 5%nat Hal ltac:(lia)) as (x & y & al & Hx & Hy & Ha).
    rewrite (sample_at_in_range _ _ _ _ _ _ _ _ Hx Hy Ha), (Hbad y Hy).
    by destruct (f x 1). }
  destruct (Hkeep 0%nat ltac:(lia) ltac:(lia) ltac:(lia)) as [c0 Hs0].
  destruct (Hkeep 6%nat ltac:(lia) ltac:(lia) ltac:(lia)) as [c6 Hs6].
  destruct (Hkeep 11%nat ltac:(lia) ltac:(lia) ltac:(lia)) as [c11 Hs11].
  split.
  - unfold visited. rewrite Hlen.
    rewrite visited_loop_visit with (r := Some c0); [|simpl; lia|done].
    do 4 (rewrite visited_loop_skip by (simpl; lia)).
    rewrite visited_loop_visit with (r := None); [|simpl; lia|done].
    rewrite visited_loop_visit with (r := Some c6); [|simpl; lia|done].
    do 4 (rewrite visited_loop_skip by (simpl; lia)).
    rewrite visited_loop_visit with (r := Some c11); [|simpl; lia|done].
    reflexivity.
  - exists c0, c6, c11. split_and!; [done..|].
    unfold extract_track, select_topic, select_from. rewrite Hd, Hlat, Hlon.
    fold alt. unfold extract_coords. rewrite Hlen.
    rewrite track_loop_visit with (r := Some c0); [|simpl; lia|done].
    do 4 (rewrite track_loop_skip by (simpl; lia)).
    rewrite track_loop_visit with (r := None); [|simpl; lia|done].
    rewrite track_loop_visit with (r := Some c6); [|simpl; lia|done].
    do 4 (rewrite track_loop_skip by (simpl; lia)).
    rewrite track_loop_visit with (r := Some c11); [|simpl; lia|done].
    reflexivity.
Qed.
End StrideClaim.

(** C2 as stated fails on [log12] (12 samples, longitude infinite at
    index 5 only): the indices read are 0, 5, 6, 11, not 0, 5, 10, and
    the track holds the samples of indices 0, 6, 11, not those of 0, 10.
    With the longitude at index 10 invalid as well the track is the
    same three samples, not the sample of index 0 alone. *)
Lemma stride_counterexample :
  lon12 !! 5%nat = Some (CFloat infinity) /\
  visited (PF := sample_builtins) lat12 lon12 (Some alt12) 1 5 = [0; 5; 6; 11]%nat /\
  extract_track (PF := sample_builtins) log12 5 =
    Ret [(100%float, 0%float, 30%float);
         (106%float, 6%float, 30%float);
         (111%float, 11%float, 30%float)] /\
  visited (PF := sample_builtins) lat12 lon12 (Some alt12) 1 5 <> [0; 5; 10]%nat /\
  extract_track (PF := sample_builtins) log12 5 <>
    Ret [(100%float, 0%float, 30%float); (110%float, 10%float, 30%float)] /\
  extract_coords (PF := sample_builtins)
    lat12 (<[10%nat := CFloat nan]> lon12) (Some alt12) 1 5 =
    Ret [(100%float, 0%float, 30%float);
         (106%float, 6%float, 30%float);
         (111%float, 11%float, 30%float)].
Proof.
  split_and!; [reflexivity|vm_compute; reflexivity|vm_compute; reflexivity| | |].
  - vm_compute. discriminate.
  - vm_compute. discriminate.
  - vm_compute. reflexivity.
Qed.

Lemma stride_counts_from_last_kept_witness :
  visited (PF := sample_builtins) lat12 lon12 (data topic12 !! "alt") 1 5
    = [0; 5; 6; 11]%nat /\
  exists c0 c6 c11,
    sample_at (PF := sample_builtins) lat12 lon12 (data topic12 !! "alt") 1 0 = Ret (Some c0) /\
    sample_at (PF := sample_builtins) lat12 lon12 (data topic12 !! "alt") 1 6 = Ret (Some c6) /\
    sample_at (PF := sample_builtins) lat12 lon12 (data topic12 !! "alt") 1 11 = Ret (Some c11) /\
    extract_track (PF := sample_builtins) log12 5 = Ret [c0; c6; c11].
Proof.
  apply (stride_counts_from_last_kept (PF := sample_builtins) log12 topic12 lat12 lon12).
  - reflexivity.
  - vm_compute. reflexivity.
  - vm_compute. reflexivity.
  - reflexivity.
  - split; [reflexivity|]. vm_compute. reflexivity.
  - repeat constructor; eexists; vm_compute; reflexivity.
  - intros i y H5 H10.
    do 12 (destruct i as [|i]; [try done; intros [= <-]; eexists; vm_compute; reflexivity|]).
    discriminate.
  - intros y [= <-]. vm_compute. reflexivity.
Defined.

(** ** Output naming: claims *)

Section NamingClaims.

Lemma elem_of_added (n : string) (X : gset string) : n ∈ {[n]} ∪ X.
Proof. apply elem_of_union. left. by apply elem_of_singleton. Qed.

Lemma elem_of_added_later (m n : string) (X : gset string) :
  m ∈ X -> m ∈ {[n]} ∪ X.
Proof. intros Hm. apply elem_of_union. by right. Qed.



End NamingClaims.



(** ** Python string operations: facts *)

Section StringFacts.





(** [split]: a string without the separator is one part. *)
Lemma split_on_none (s : string) :
  string_forall not_comma s = true -> split_on "," s = [s].
Proof.
  induction s as [|c s IH]; simpl; [done|].
  intros [Hc Hs]%andb_true_iff. unfold not_comma in Hc.
  apply negb_true_iff, bool_decide_eq_false in Hc.
  rewrite decide_False by done. by rewrite (IH Hs).
Qed.

(** [split]: the part before the first separator. *)
Lemma split_on_first (a b : string) :
  string_forall not_comma a = true ->
  split_on "," (a +:+ "," +:+ b) = a :: split_on "," b.
Proof.
  induction a as [|c a IH]; intros Ha.
  - rewrite string_app_nil_l. change ("," +:+ b) with (String "," b).
    cbn [split_on]. by destruct (decide ("," = ","))%char.
  - rewrite string_app_cons. simpl in *.
    apply andb_true_iff in Ha as [Hc Ha]. unfold not_comma in Hc.
    apply negb_true_iff, bool_decide_eq_false in Hc.
    rewrite decide_False by done. by rewrite (IH Ha).
Qed.




Lemma rstrip_spaces (pad : string) :
  string_forall is_space pad = true -> rstrip pad = "".
Proof.
  induction pad as [|c pad IH]; simpl; [done|].
  intros [-> Hpad]%andb_true_iff. by rewrite (IH Hpad).
Qed.




Lemma app_nonempty_r (s t : string) : t <> "" -> s +:+ t <> "".
Proof.
  intros Ht Heq. apply (f_equal String.length) in Heq.
  rewrite string_length_app in Heq. destruct t; [done|]. simpl in Heq. lia.
Qed.

End StringFacts.

(** ** Coordinate import: claims *)

Section ImportClaims.
Context `{PF : PyFloat}.


Lemma py_bind_ret {A B} (a : A) (k : A -> py B) : (Ret a ≫= k) = k a.
Proof. reflexivity. Qed.




Lemma strip_not_comma (t : string) :
  string_forall not_comma t = true -> string_forall not_comma (strip t) = true.
Proof.
  intros Ht. unfold strip.
  assert (string_forall not_comma (lstrip t) = true) as Hl.
  { induction t as [|c t IH]; simpl; [done|].
    simpl in Ht. apply andb_true_iff in Ht as [Hc Ht].
    destruct (is_space c); [by apply IH|]. simpl. by rewrite Hc, Ht. }
  clear Ht. induction (lstrip t) as [|c s IH]; simpl; [done|].
  simpl in Hl. apply andb_true_iff in Hl as [Hc Hs]. specialize (IH Hs).
  destruct (rstrip s); [destruct (is_space c); simpl; by rewrite ?Hc|].
  simpl in *. by rewrite Hc, IH.
Qed.

Lemma scan_coordinates_skip (pre rest : list element) :
  Forall passed_over pre ->
  scan_coordinates (pre ++ rest) = scan_coordinates rest.
Proof.
  induction 1 as [|e pre He _ IH]; [done|]. simpl.
  destruct He as [Htag|[Hnone|[Hempty|(t & Ht & Hcomma)]]].
  - by rewrite Htag.
  - rewrite Hnone. by destruct (contains _ _).
  - rewrite Hempty. by destruct (contains _ _).
  - rewrite Ht. destruct (contains _ _); [|done].
    destruct t; [done|].
    by rewrite (split_on_none _ (strip_not_comma _ Hcomma)).
Qed.

(** C8 (amended). For a Schema-B document without a Point element:
    sim.py reports NotFound at once; v3.py scans the elements in document
    order, passes over those whose tag does not contain "coordinates" or
    whose text is missing, empty or without a comma, and at the first
    remaining element returns (lat, lon) parsed from the first two
    comma-separated parts lon, lat of its stripped text, whatever follows
    the latitude after a further comma (an altitude, further tuples);
    when every element is passed over, v3.py reports NotFound as well. *)
Theorem kml_without_point root :
  find_point root = None ->
  Sim._coords_from_kml root = Ret (None, None) /\
  (forall pre e post t lo_s la_s tail la lo,
     iter root = pre ++ e :: post ->
     Forall passed_over pre ->
     contains "coordinates" (tag_of e) = true ->
     text_of e = Some t ->
     strip t = lo_s +:+ "," +:+ la_s +:+ tail ->
     string_forall not_comma lo_s = true ->
     string_forall not_comma la_s = true ->
     (tail = "" \/ exists rest, tail = "," +:+ rest) ->
     float_of_str lo_s = Some lo -> float_of_str la_s = Some la ->
     V3._coords_from_kml root = Ret (Some la, Some lo)) /\
  (Forall passed_over (iter root) ->
   V3._coords_from_kml root = Ret (None, None)).
Proof.
  intros Hpt. split; [|split].
  - unfold Sim._coords_from_kml. by rewrite Hpt.
  - intros pre e post t lo_s la_s tail la lo
      Hiter Hpre Htag Htxt Hstrip Hlo Hla Htail Hflo Hfla.
    unfold V3._coords_from_kml. rewrite Hpt, Hiter, (scan_coordinates_skip _ _ Hpre).
    assert (exists ps, split_on "," (lo_s +:+ "," +:+ la_s +:+ tail) = lo_s :: la_s :: ps)
      as [ps Hsplit].
    { rewrite (split_on_first lo_s _ Hlo).
      destruct Htail as [->|(rest & ->)].
      - rewrite string_app_nil_r, (split_on_none _ Hla). eauto.
      - rewrite (split_on_first la_s _ Hla). eauto. }
    destruct t as [|c t'].
    { exfalso. revert Hstrip. change (strip "") with "". intros Heq.
      symmetry in Heq. revert Heq. apply app_nonempty_r.
      rewrite string_app_cons. discriminate. }
    cbn [scan_coordinates]. rewrite Htag, Htxt. cbv iota.
    rewrite Hstrip, Hsplit.
    unfold float_of_text. by rewrite Hfla, Hflo.
  - intros Hall. unfold V3._coords_from_kml. rewrite Hpt.
    rewrite <-(app_nil_r (iter root)), (scan_coordinates_skip _ _ Hall). done.
Qed.
End ImportClaims.


(** C8 as stated fails on sim.py: for [line_doc], which has a
    coordinates element but no Point, sim.py returns [(None, None)]
    without scanning, while v3.py returns the pair.  In v3.py the pair is
    that of the first tuple only when the latitude ends at a comma or at
    the end of the text: for [pair_doc], whose text holds two tuples
    without altitude, the conversion of the second part raises. *)
Lemma kml_without_point_counterexample :
  find_point line_doc = None /\
  In line_coordinates (iter line_doc) /\
  contains "coordinates" (tag_of line_coordinates) = true /\
  Sim._coords_from_kml (PF := sample_builtins) line_doc = Ret (None, None) /\
  V3._coords_from_kml (PF := sample_builtins) line_doc =
    Ret (Some 47.25%float, Some 8.5%float) /\
  find_point pair_doc = None /\
  In pair_coordinates (iter pair_doc) /\
  contains "coordinates" (tag_of pair_coordinates) = true /\
  text_of pair_coordinates = Some "8.5,47.25 8.75,47.5" /\
  Sim._coords_from_kml (PF := sample_builtins) pair_doc = Ret (None, None) /\
  V3._coords_from_kml (PF := sample_builtins) pair_doc = Raise ValueError.
Proof.
  split_and!; try (vm_compute; reflexivity); simpl; auto.
Qed.

Lemma kml_without_point_witness :
  (find_point line_doc = None /\
   Sim._coords_from_kml (PF := sample_builtins) line_doc = Ret (None, None) /\
   V3._coords_from_kml (PF := sample_builtins) line_doc =
     Ret (Some 47.25%float, Some 8.5%float)) /\
  (find_point track_doc = None /\
   text_of track_coordinates = Some " 8.5,47.25,400 8.75,47.5,410 " /\
   Sim._coords_from_kml (PF := sample_builtins) track_doc = Ret (None, None) /\
   V3._coords_from_kml (PF := sample_builtins) track_doc =
     Ret (Some 47.25%float, Some 8.5%float)) /\
  (find_point empty_doc = None /\
   V3._coords_from_kml (PF := sample_builtins) empty_doc = Ret (None, None)).
Proof.
  split; [|split].
  - assert (find_point line_doc = None) as Hpt by (vm_compute; reflexivity).
    destruct (kml_without_point (PF := sample_builtins) line_doc Hpt)
      as (Hsim & Hv3 & _).
    split; [exact Hpt|]. split; [exact Hsim|].
    apply (Hv3 [line_doc; line_placemark; line_string] line_coordinates []
               " 8.5,47.25,400 " "8.5" "47.25" ",400").
    + reflexivity.
    + repeat constructor; left; vm_compute; reflexivity.
    + vm_compute. reflexivity.
    + reflexivity.
    + vm_compute. reflexivity.
    + reflexivity.
    + reflexivity.
    + right. exists "400". reflexivity.
    + reflexivity.
    + reflexivity.
  - assert (find_point track_doc = None) as Hpt by (vm_compute; reflexivity).
    destruct (kml_without_point (PF := sample_builtins) track_doc Hpt)
      as (Hsim & Hv3 & _).
    split; [exact Hpt|]. split; [reflexivity|]. split; [exact Hsim|].
    apply (Hv3 [track_doc; track_string] track_coordinates []
               " 8.5,47.25,400 8.75,47.5,410 " "8.5" "47.25"
               ",400 8.75,47.5,410").
    + reflexivity.
    + repeat constructor; left; vm_compute; reflexivity.
    + vm_compute. reflexivity.
    + reflexivity.
    + vm_compute. reflexivity.
    + reflexivity.
    + reflexivity.
    + right. exists "400 8.75,47.5,410". reflexivity.
    + reflexivity.
    + reflexivity.
  - assert (find_point empty_doc = None) as Hpt by (vm_compute; reflexivity).
    destruct (kml_without_point (PF := sample_builtins) empty_doc Hpt)
      as (_ & _ & Hnone).
    split; [exact Hpt|]. apply Hnone.
    repeat constructor; left; vm_compute; reflexivity.
Defined.

Section SwapClaim.
Context `{PF : PyFloat}.

(** C1 (amended). For every coordinate pair (lat, lon) that extraction
    produces from a planning document (Schema A or Schema B, in either
    generation of the program), the swap heuristic compares the signed
    values: when [lat < lon] the import sets (lon, lat) and logs exactly
    one swap notice; otherwise ([lat >= lon], or a NaN) it sets
    (lat, lon) unmodified and logs no swap notice. *)
Theorem swap_compares_signed_values (src : source) (lat lon : float) :
  (extract_with Sim._coords_from_kml src = Ret (Some lat, Some lon) ->
   exists log,
     Sim._import_coords src =
       (if (lat <? lon)%float then Imported lon lat log else Imported lat lon log) /\
     swap_notices log = (if (lat <? lon)%float then 1 else 0)%nat)
  /\ (extract_with V3._coords_from_kml src = Ret (Some lat, Some lon) ->
      exists log,
        V3._import_coords src =
          (if (lat <? lon)%float then Imported lon lat log else Imported lat lon log) /\
        swap_notices log = (if (lat <? lon)%float then 1 else 0)%nat).
Proof.
  split; intros Hext;
    unfold Sim._import_coords, V3._import_coords, import_coords_with;
    rewrite Hext; unfold finish_import;
    destruct (lat <? lon)%float; eexists; split; reflexivity.
Qed.
End SwapClaim.

(** C1 as stated fails where sign and magnitude disagree: the pair
    (-50, 10) has |lat| >= |lon| yet is swapped with a notice, and
    (10, -80) has |lat| < |lon| yet is neither swapped nor noticed. *)
Lemma swap_counterexample :
  (abs 10 <=? abs (-50))%float = true /\
  Sim._import_coords (PF := sample_builtins) (PlanSource (Ret (home_plan (-50) 10))) =
    Imported 10 (-50) [SwapNotice; ImportedNotice 10 (-50)] /\
  V3._import_coords (PF := sample_builtins) (PlanSource (Ret (home_plan (-50) 10))) =
    Imported 10 (-50) [SwapNotice; ImportedNotice 10 (-50)] /\
  (abs 10 <? abs (-80))%float = true /\
  Sim._import_coords (PF := sample_builtins) (PlanSource (Ret (home_plan 10 (-80)))) =
    Imported 10 (-80) [ImportedNotice 10 (-80)].
Proof. split_and!; vm_compute; reflexivity. Qed.

Lemma swap_compares_signed_values_witness :
  extract_with (PF := sample_builtins) (Sim._coords_from_kml (PF := sample_builtins))
    (KmlSource (Ret point_doc)) = Ret (Some 47.25%float, Some 8.5%float) /\
  exists log,
    Sim._import_coords (PF := sample_builtins) (KmlSource (Ret point_doc)) =
      (if (47.25 <? 8.5)%float
       then Imported 8.5 47.25 log else Imported 47.25 8.5 log) /\
    swap_notices log = (if (47.25 <? 8.5)%float then 1 else 0)%nat.
Proof.
  assert (extract_with (PF := sample_builtins) (Sim._coords_from_kml (PF := sample_builtins))
            (KmlSource (Ret point_doc)) = Ret (Some 47.25%float, Some 8.5%float)) as Hext.
  { vm_compute. reflexivity. }
  split; [exact Hext|].
  exact (proj1 (swap_compares_signed_values (PF := sample_builtins)
                  (KmlSource (Ret point_doc)) 47.25 8.5) Hext).
Defined.

Section PlanClaim.
Context `{PF : PyFloat}.

Lemma scan_items_skip (pre rest : list json) :
  Forall (fun it => has_both it = Ret false) pre ->
  scan_items (pre ++ rest) = scan_items rest.
Proof.
  induction 1 as [|it pre Hit _ IH]; [done|]. simpl. by rewrite Hit.
Qed.

Lemma scan_items_bad_value ikv v5 v6 post :
  assoc "param5" ikv = Some v5 -> assoc "param6" ikv = Some v6 ->
  (exists e, float_of_json v5 = Raise e) \/ (exists e, float_of_json v6 = Raise e) ->
  exists e, scan_items (JObj ikv :: post) = Raise e.
Proof.
  intros H5 H6 Hbad. cbn [scan_items]. unfold has_both, py_in, py_getitem.
  rewrite H5, H6. rewrite !bool_decide_eq_true_2 by eauto.
  rewrite !py_bind_ret.
  destruct Hbad as [[e He]|[e He]].
  - rewrite He. eauto.
  - destruct (float_of_json v5) as [x5|e5]; [|eauto].
    rewrite !py_bind_ret, He. eauto.
Qed.

Lemma planned_home_result top mkv :
  assoc "mission" top = Some (JObj mkv) ->
  match planned_home (JObj top) with
  | Ret (Some (la, lo)) => Ret (Some la, Some lo)
  | _ => Ret (None, None)
  end = home_result (assoc "plannedHomePosition" mkv).
Proof.
  intros Hm. unfold planned_home, py_get, home_result. rewrite Hm.
  rewrite !py_bind_ret.
  destruct (assoc "plannedHomePosition" mkv) as [php|]; [|done].
  destruct php as [| | | | |[|p0 [|p1 ps]]|]; try done.
  destruct (float_of_json p0); [|done]. rewrite py_bind_ret.
  by destruct (float_of_json p1).
Qed.

(** C10. When the first mission item that has both [param5] and
    [param6] holds a value [float] rejects, [_coords_from_plan] abandons
    the scan and answers from [plannedHomePosition] alone: the pair
    converted from its first two entries, or [(None, None)] when it is
    absent, not a list of two or more, or not convertible.  The items
    after the failing one play no part, and on every decoded document
    [_coords_from_plan] returns a pair rather than raising. *)
Theorem plan_scan_abandoned_on_bad_value top mkv pre ikv post v5 v6 :
  assoc "mission" top = Some (JObj mkv) ->
  assoc "items" mkv = Some (JArr (pre ++ JObj ikv :: post)) ->
  Forall (fun it => has_both it = Ret false) pre ->
  assoc "param5" ikv = Some v5 -> assoc "param6" ikv = Some v6 ->
  (exists e, float_of_json v5 = Raise e) \/ (exists e, float_of_json v6 = Raise e) ->
  _coords_from_plan (JObj top) = home_result (assoc "plannedHomePosition" mkv)
  /\ (forall data, exists r, _coords_from_plan data = Ret r).
Proof.
  intros Hm Hitems Hpre H5 H6 Hbad. split.
  - unfold _coords_from_plan.
    assert (exists e, first_waypoint (JObj top) = Raise e) as [e ->].
    { unfold first_waypoint, py_get, py_iter. rewrite Hm, !py_bind_ret, Hitems.
      rewrite !py_bind_ret, (scan_items_skip _ _ Hpre).
      by eapply scan_items_bad_value. }
    by apply planned_home_result.
  - intros data. unfold _coords_from_plan.
    destruct (first_waypoint data) as [[[la lo]|]|e];
      [by eexists| |];
      (destruct (planned_home data) as [[[la' lo']|]|e']; by eexists).
Qed.
End PlanClaim.

Lemma plan_scan_abandoned_on_bad_value_witness :
  _coords_from_plan (PF := sample_builtins) bad_item_plan =
    Ret (Some 47.25%float, Some 8.5%float).
Proof.
  refine (proj1 (plan_scan_abandoned_on_bad_value (PF := sample_builtins)
            [("mission",
              JObj [("items",
                     JArr [JObj [("command", JInt 22)];
                           JObj [("param5", JNull); ("param6", JFloat 8.5)];
                           JObj [("param5", JFloat 47.5); ("param6", JFloat 8.25)]]);
                    ("plannedHomePosition", JArr [JFloat 47.25; JFloat 8.5; JInt 400])])]
            [("items",
              JArr [JObj [("command", JInt 22)];
                    JObj [("param5", JNull); ("param6", JFloat 8.5)];
                    JObj [("param5", JFloat 47.5); ("param6", JFloat 8.25)]]);
             ("plannedHomePosition", JArr [JFloat 47.25; JFloat 8.5; JInt 400])]
            [JObj [("command", JInt 22)]]
            [("param5", JNull); ("param6", JFloat 8.5)]
            [JObj [("param5", JFloat 47.5); ("param6", JFloat 8.25)]]
            JNull (JFloat 8.5) _ _ _ _ _ _)).
  - reflexivity.
  - reflexivity.
  - repeat constructor.
  - reflexivity.
  - reflexivity.
  - left. eexists. reflexivity.
Defined.

(** ** The model on concrete inputs *)

Example strip_split_example :
  strip "  8.5,47.25,400 8.75,47.5,410  " = "8.5,47.25,400 8.75,47.5,410" /\
  split_ws "  8.5,47.25,400 8.75,47.5,410  " = ["8.5,47.25,400"; "8.75,47.5,410"] /\
  split_on "," "8.5,47.25,400" = ["8.5"; "47.25"; "400"] /\
  split_on "," "" = [""] /\
  split_ws "   " = [].
Proof. split_and!; reflexivity. Qed.

Example stem_suffix_example :
  stem "flight.ulg" = "flight" /\ suffix "flight.kml" = ".kml" /\
  stem "log.2024.kml" = "log.2024" /\ stem ".kml" = ".kml" /\ suffix ".kml" = "".
Proof. split_and!; reflexivity. Qed.

Example unique_name_example :
  _unique_name 4 {["flight.kml"; "flight-1.kml"; "flight-2.kml"]} "flight.kml" =
    Some "flight-3.kml" /\
  _unique_name 2 {["flight.kml"; "flight-1.kml"; "flight-2.kml"]} "flight.kml" = None.
Proof. split; vm_compute; reflexivity. Qed.

Example gps_scaled_example :
  extract_track (PF := sample_builtins) gps_log 5 =
    Ret [((85455940 / 1e7)%float, (473977420 / 1e7)%float, 0%float)].
Proof. vm_compute. reflexivity. Qed.

Example no_topic_example :
  extract_track (PF := sample_builtins) [Topic "vehicle_attitude" ∅] 5 =
    Raise (RuntimeError no_topic_msg).
Proof. vm_compute. reflexivity. Qed.

Example whitespace_only_text_raises :
  Sim._coords_from_kml (PF := sample_builtins)
    (Element (kml_ns +:+ "kml") None
       [Element (kml_ns +:+ "Point") None
          [Element (kml_ns +:+ "coordinates") (Some "  ") []]]) = Raise IndexError.
Proof. vm_compute. reflexivity. Qed.

Example fallback_run_example :
  exists dir',
    run (PF := sample_builtins) (Ret 1) true true "flight.ulg" (Ret log3)
      {["flight.kml" := ToolOutput "old"]} =
      (Success "KML created (fallback): flight-1.kml", dir') /\
    dir' !! "flight.kml" = Some (ToolOutput "old") /\
    (ls_coords <$> (match dir' !! "flight-1.kml" with
                    | Some (FallbackTrack k) => Some k
                    | _ => None
                    end)) =
      Some [(8.5%float, 47.25%float, 0%float)].
Proof. eexists. split_and!; vm_compute; reflexivity. Qed.

(** * Further properties *)

(** ** The fallback extractor beyond the claims *)

Section FallbackFurther.
Context `{PF : PyFloat}.

Lemma sample_at_finite lat lon alt scale i c :
  sample_at lat lon alt scale i = Ret (Some c) -> finite_sample c.
Proof.
  unfold sample_at, py_index.
  destruct (lat !! i) as [x|]; [|discriminate].
  destruct (lon !! i) as [y|]; [|discriminate]. simpl.
  assert (forall al : option float,
            match f x scale, f y scale with
            | Some la, Some lo =>
                Ret (Some (lo, la, match al with Some a => a | None => 0%float end))
            | _, _ => Ret None
            end = Ret (Some c) ->
            (forall a, al = Some a -> isfinite a = true) -> finite_sample c) as Hcase.
  { intros al Heq Hal.
    destruct (f x scale) as [la|] eqn:Hla; [|discriminate].
    destruct (f y scale) as [lo|] eqn:Hlo; [|discriminate].
    injection Heq as <-.
    apply f_Some in Hla as (? & _ & _ & Hla).
    apply f_Some in Hlo as (? & _ & _ & Hlo).
    split_and!; simpl; [done..|].
    destruct al as [a|]; [by apply Hal|reflexivity]. }
  destruct alt as [a|]; simpl.
  - unfold py_index. destruct (a !! i) as [z|]; [|discriminate]. simpl.
    intros Heq. apply (Hcase (f z 1) Heq).
    intros v Hv. by apply f_Some in Hv as (? & _ & _ & ?).
  - intros Heq. apply (Hcase (Some 0%float) Heq). by intros v [= <-].
Qed.

Lemma track_loop_kept lat lon alt scale downsample n :
  forall i coords last track,
    track_loop lat lon alt scale downsample n i coords last = Ret track ->
    exists idx tail,
      track = coords ++ tail /\
      Forall2 (fun j c => sample_at lat lon alt scale j = Ret (Some c)) idx tail /\
      apart_from downsample last idx /\
      Forall (fun j => (i <= j < i + n)%nat) idx.
Proof.
  induction n as [|n IH]; intros i coords last track; simpl.
  - intros [= <-]. exists [], []. by rewrite app_nil_r.
  - assert (forall idx, Forall (fun j => (S i <= j < S i + n)%nat) idx ->
                        Forall (fun j => (i <= j < i + S n)%nat) idx) as Hwiden.
    { intros idx Hidx. eapply Forall_impl; [exact Hidx|].
      intros j Hj. simpl in Hj. lia. }
    destruct (Z.ltb_spec (Z.of_nat i - last) downsample) as [Hlt|Hge].
    + intros Hrun. destruct (IH _ _ _ _ Hrun) as (idx & tail & ? & ? & ? & ?).
      exists idx, tail. auto.
    + destruct (sample_at lat lon alt scale i) as [[c|]|e] eqn:Hs; simpl.
      * intros Hrun. destruct (IH _ _ _ _ Hrun) as (idx & tail & -> & Hall & Hapart & Hrange).
        exists (i :: idx), (c :: tail). split_and!.
        -- by rewrite <-app_assoc.
        -- by constructor.
        -- simpl. split; [lia|done].
        -- constructor; [lia|auto].
      * intros Hrun. destruct (IH _ _ _ _ Hrun) as (idx & tail & ? & ? & ? & ?).
        exists idx, tail. auto.
      * discriminate.
Qed.

(** X1. Whatever the log, the track is made of samples of the arrays
    taken at increasing indices: the first kept index is at least 0,
    each next one at least [downsample] after the one before, and every
    element of the track is the sample the code computes at its index. *)
Theorem track_is_spaced_selection lat lon alt scale downsample track :
  extract_coords lat lon alt scale downsample = Ret track ->
  exists idx,
    Forall2 (fun j c => sample_at lat lon alt scale j = Ret (Some c)) idx track /\
    apart_from downsample (- downsample) idx /\
    Forall (fun j => (j < length lat)%nat) idx.
Proof.
  intros Hrun. unfold extract_coords in Hrun.
  destruct (track_loop_kept _ _ _ _ _ _ _ _ _ _ Hrun) as (idx & tail & -> & ? & ? & Hrange).
  exists idx. split_and!; [done..|].
  eapply Forall_impl; [exact Hrange|]. intros j Hj. simpl in Hj. lia.
Qed.

(** X2. A successful call of [_fallback_ulog_to_kml] changes the output
    directory in one place only: the target file, which then holds a
    track with at least one sample, every coordinate of it finite. *)
Theorem fallback_writes_one_finite_track basename data_list tgt downsample dir dir' :
  _fallback_ulog_to_kml basename data_list tgt downsample dir = (Ret tt, dir') ->
  exists track,
    track <> [] /\ Forall finite_sample track /\
    dir' !! tgt = Some (FallbackTrack (track_file basename track)) /\
    ls_coords (track_file basename track) = track /\
    forall other, other <> tgt -> dir' !! other = dir !! other.
Proof.
  unfold _fallback_ulog_to_kml, extract_track.
  destruct (select_topic data_list) as [[d [lat|] [lon|] alt scale]|];
    try discriminate.
  destruct (extract_coords lat lon alt scale downsample) as [coords|e] eqn:Hrun;
    [|discriminate].
  simpl. destruct coords as [|c coords]; [discriminate|].
  intros [= <-]. exists (c :: coords). split_and!.
  - done.
  - unfold extract_coords in Hrun.
    eapply track_loop_scaled; [|constructor|exact Hrun].
    intros i c'. apply sample_at_finite.
  - by rewrite lookup_insert_eq.
  - done.
  - intros other Hne. by rewrite lookup_insert_ne.
Qed.

Lemma track_loop_clean lat lon alt scale downsample (c : nat -> sample) n :
  1 <= downsample ->
  forall i coords last,
    (forall j, (i <= j < i + n)%nat -> sample_at lat lon alt scale j = Ret (Some (c j))) ->
    last mod downsample = 0 ->
    last < Z.of_nat i <= last + downsample ->
    track_loop lat lon alt scale downsample n i coords last =
      Ret (coords ++
           (c <$> filter (fun j => Z.of_nat j mod downsample = 0) (seq i n))).
Proof.
  intros HS. induction n as [|n IH]; intros i coords last Hclean Hmod Hpos.
  - simpl. by rewrite app_nil_r.
  - cbn [seq].
    destruct (Z.ltb_spec (Z.of_nat i - last) downsample) as [Hlt|Hge].
    + rewrite track_loop_skip by done.
      assert (Z.of_nat i mod downsample <> 0) as Hnot.
      { intros Hi. apply Z.mod_divide in Hi; [|lia]. apply Z.mod_divide in Hmod; [|lia].
        destruct Hi as [a Ha], Hmod as [b Hb]. subst last. rewrite Ha in *.
        assert (b < a) by nia. assert (a < b + 1) by nia. lia. }
      rewrite filter_cons_False by done.
      apply IH; [intros j Hj; apply Hclean; lia|done|lia].
    + assert (Z.of_nat i = last + downsample) as Hi by lia.
      assert (Z.of_nat i mod downsample = 0) as Hmul.
      { rewrite Hi, <-Zplus_mod_idemp_l, Hmod. simpl. by apply Z_mod_same_full. }
      rewrite track_loop_visit with (r := Some (c i)); [|done|apply Hclean; lia].
      rewrite filter_cons_True by done. rewrite fmap_cons.
      rewrite (IH (S i) (coords ++ [c i]) (Z.of_nat i));
        [by rewrite <-app_assoc|intros j Hj; apply Hclean; lia|done|lia].
Qed.

(** X3. On a log in which every index yields a sample, a stride
    [downsample >= 1] keeps exactly the samples whose index is a multiple
    of the stride, in order. *)
Theorem clean_log_regular_stride lat lon alt scale downsample (c : nat -> sample) :
  1 <= downsample ->
  (forall j, (j < length lat)%nat -> sample_at lat lon alt scale j = Ret (Some (c j))) ->
  extract_coords lat lon alt scale downsample =
    Ret (c <$> stride_indices downsample (length lat)).
Proof.
  intros HS Hclean. unfold extract_coords, stride_indices.
  destruct (length lat) as [|n] eqn:Hlen; [done|].
  cbn [seq]. rewrite track_loop_visit with (r := Some (c 0%nat));
    [|simpl; lia|apply Hclean; lia].
  rewrite filter_cons_True by (by rewrite Zmod_0_l).
  rewrite fmap_cons.
  rewrite (track_loop_clean lat lon alt scale downsample c n HS 1 _ 0);
    [done|intros j Hj; apply Hclean; lia|by rewrite Zmod_0_l|lia].
Qed.

Lemma track_loop_no_stride lat lon alt scale downsample (r : nat -> option sample) n :
  downsample <= 1 ->
  forall i coords last,
    (forall j, (i <= j < i + n)%nat -> sample_at lat lon alt scale j = Ret (r j)) ->
    downsample <= Z.of_nat i - last ->
    track_loop lat lon alt scale downsample n i coords last =
      Ret (coords ++ omap r (seq i n)).
Proof.
  intros HS. induction n as [|n IH]; intros i coords last Hall Hguard.
  - simpl. by rewrite app_nil_r.
  - rewrite track_loop_visit with (r := r i); [|done|apply Hall; lia].
    cbn [seq].
    change (omap r (i :: seq (S i) n))
      with (match r i with
            | Some c => c :: omap r (seq (S i) n)
            | None => omap r (seq (S i) n)
            end).
    destruct (r i) as [c|].
    + rewrite IH; [by rewrite <-app_assoc|intros j Hj; apply Hall; lia|lia].
    + rewrite IH; [done|intros j Hj; apply Hall; lia|lia].
Qed.

(** X4. A stride of 1 or less switches the downsampling off: every index
    is read, and the track holds every sample with an accepted latitude
    and longitude, in order. *)
Theorem stride_one_keeps_all lat lon alt scale downsample (r : nat -> option sample) :
  downsample <= 1 ->
  (forall j, (j < length lat)%nat -> sample_at lat lon alt scale j = Ret (r j)) ->
  extract_coords lat lon alt scale downsample = Ret (omap r (seq 0 (length lat))).
Proof.
  intros HS Hall. unfold extract_coords.
  rewrite (track_loop_no_stride lat lon alt scale downsample r);
    [done|done|intros j Hj; apply Hall; lia|simpl; lia].
Qed.

(** X5. A global-position topic that lacks the [lat] or the [lon] field
    shadows the GPS topic: the fallback raises the no-position-topic
    error without looking at any GPS-position topic of the log. *)
Theorem global_topic_shadows_gps data_list d downsample :
  find_topic "vehicle_global_position" data_list = Some d ->
  data d !! "lat" = None \/ data d !! "lon" = None ->
  extract_track data_list downsample = Raise (RuntimeError no_topic_msg).
Proof.
  intros Hd Hmissing. unfold extract_track, select_topic, select_from. rewrite Hd.
  destruct Hmissing as [-> | ->]; [done|]. by destruct (data d !! "lat").
Qed.

End FallbackFurther.

(** ** Output naming beyond the claims *)

Section NamingFurther.

Lemma string_take_drop (i : nat) (s : string) :
  string_take i s +:+ string_drop i s = s.
Proof.
  revert s. induction i as [|i IH]; intros [|c s]; simpl; try done.
  by rewrite string_app_cons, IH.
Qed.

Lemma stem_suffix (nm : string) : stem nm +:+ suffix nm = nm.
Proof.
  unfold stem, suffix, split_suffix.
  destruct (rfind_dot nm) as [i|]; [|apply string_app_nil_r].
  case_bool_decide; simpl; [apply string_take_drop|apply string_app_nil_r].
Qed.

(** X7. For any base name, with or without a suffix, and any finite
    directory, [_unique_name] ends within one iteration more than the
    directory has entries and returns a name that is not in the
    directory: the base name itself when it is free, otherwise the base
    name with [-i] put between its stem and its suffix, for the smallest
    [i >= 1] that is free; the stem and the suffix make up the base name. *)
Theorem unique_name_any_base (entries : gset string) (base : string) (fuel : nat) :
  (size entries < fuel)%nat ->
  stem base +:+ suffix base = base /\
  exists n,
    _unique_name fuel entries base = Some n /\ (n ∉ entries) /\
    ((base ∉ entries) /\ n = base \/
     base ∈ entries /\
     exists i, (1 <= i)%nat /\
       n = stem base +:+ "-" +:+ pretty i +:+ suffix base /\
       forall j, (1 <= j < i)%nat ->
         (stem base +:+ "-" +:+ pretty j +:+ suffix base) ∈ entries).
Proof.
  intros Hfuel. split; [apply stem_suffix|].
  destruct (unique_name_terminates fuel entries base Hfuel) as [n Hn].
  exists n. split; [done|]. split; [by eapply unique_name_fresh|].
  unfold _unique_name in Hn. destruct (decide (base ∈ entries)) as [Hin|Hout].
  - right. split; [done|].
    pose proof (unique_name_loop_spec fuel entries (stem base) (suffix base) 1) as Hspec.
    rewrite Hn in Hspec. destruct Hspec as (k & Hk & -> & _ & Hbelow).
    exists k. split_and!; [lia|done|done].
  - left. by injection Hn as <-.
Qed.

Lemma nth_conversion_name_fresh fuel base k :
  forall (entries : gset string) n,
    nth_conversion_name fuel entries base k = Some n -> n ∉ entries.
Proof.
  induction k as [|k IH]; intros entries n; simpl.
  - destruct (_unique_name fuel entries base) as [m|] eqn:Hm; [|discriminate].
    intros [= <-]. by eapply unique_name_fresh.
  - destruct (_unique_name fuel entries base) as [m|] eqn:Hm; [|discriminate].
    intros Hn%IH Hin. by apply Hn, elem_of_added_later.
Qed.

(** X8. However often the same log is converted, each conversion
    leaving its output in the directory, no two conversions get the same
    name and none gets a name that was in the directory at the start. *)
Theorem successive_names_distinct fuel base j k :
  forall (entries : gset string) a b,
    (j < k)%nat ->
    nth_conversion_name fuel entries base j = Some a ->
    nth_conversion_name fuel entries base k = Some b ->
    a <> b /\ (a ∉ entries) /\ (b ∉ entries).
Proof.
  revert k. induction j as [|j IH]; intros [|k] entries a b Hjk Ha Hb; try lia.
  - split_and!; [|by eapply nth_conversion_name_fresh..].
    simpl in Ha, Hb.
    destruct (_unique_name fuel entries base) as [m|]; [|discriminate].
    injection Ha as <-. apply nth_conversion_name_fresh in Hb.
    intros <-. apply Hb, elem_of_added.
  - split_and!; [|by eapply nth_conversion_name_fresh..].
    simpl in Ha, Hb.
    destruct (_unique_name fuel entries base) as [m|]; [|discriminate].
    by destruct (IH k _ _ _ ltac:(lia) Ha Hb).
Qed.
End NamingFurther.

(** ** Coordinate import beyond the claims *)

Section FloatOrder.

Lemma SFcompare_Lt_Gt (x y : SpecFloat.spec_float) :
  SpecFloat.SFcompare x y = Some Lt -> SpecFloat.SFcompare y x = Some Gt.
Proof.
  destruct x as [sx|sx| |sx mx ex], y as [sy|sy| |sy my ey]; simpl;
    try discriminate; try (destruct sx; discriminate || reflexivity);
    try (destruct sy; discriminate || reflexivity);
    try (destruct sx, sy; discriminate || reflexivity).
  change (Pos.compare_cont Eq my mx) with (Pos.compare my mx).
  change (Pos.compare_cont Eq mx my) with (Pos.compare mx my).
  rewrite (Z.compare_antisym ex ey), (Pos.compare_antisym mx my).
  destruct sx, sy; try discriminate; try reflexivity;
    destruct (ex ?= ey); simpl; try discriminate; try reflexivity;
    destruct (mx ?= my)%positive; simpl; discriminate || reflexivity.
Qed.

(** [<] on floats is asymmetric. *)
Lemma float_ltb_asym (x y : float) : (x <? y)%float = true -> (y <? x)%float = false.
Proof.
  rewrite !FloatAxioms.ltb_spec. unfold SpecFloat.SFltb.
  destruct (SpecFloat.SFcompare (Prim2SF x) (Prim2SF y)) as [[| |]|] eqn:Hxy;
    try discriminate.
  intros _. by rewrite (SFcompare_Lt_Gt _ _ Hxy).
Qed.
End FloatOrder.

Section ImportFurther.
Context `{PF : PyFloat}.

Lemma finish_import_ordered lat lon a b log :
  finish_import lat lon = Imported a b log -> (a <? b)%float = false.
Proof.
  unfold finish_import. destruct (lat <? lon)%float eqn:Hlt; intros [= <- <- _].
  - by apply float_ltb_asym.
  - done.
Qed.

Lemma import_coords_with_ordered cfk src a b log :
  import_coords_with cfk src = Imported a b log -> (a <? b)%float = false.
Proof.
  unfold import_coords_with.
  destruct (extract_with cfk src) as [[[lat|] [lon|]]|e]; try discriminate.
  apply finish_import_ordered.
Qed.

(** X9. Whatever file is imported, in either generation, the latitude
    set in the form is never less than the longitude set: the pair comes
    out ordered, and running the heuristic again on the imported pair
    swaps nothing and logs no swap notice. *)
Theorem imported_pair_is_ordered (src : source) (a b : float) (log : list log_event) :
  Sim._import_coords src = Imported a b log \/ V3._import_coords src = Imported a b log ->
  (a <? b)%float = false /\
  finish_import a b = Imported a b [ImportedNotice a b].
Proof.
  intros Himp.
  assert ((a <? b)%float = false) as Hord.
  { destruct Himp as [Himp|Himp]; by apply import_coords_with_ordered in Himp. }
  split; [done|]. unfold finish_import. by rewrite Hord.
Qed.

(** X10. v3.py only adds to sim.py's [_coords_from_kml]: whenever
    sim.py's version gives anything but [(None, None)] (a pair or an
    exception), v3.py's version gives the same. *)
Theorem v3_extends_sim (root : element) (r : py (option float * option float)) :
  Sim._coords_from_kml root = r -> r <> Ret (None, None) ->
  V3._coords_from_kml root = r.
Proof.
  unfold Sim._coords_from_kml, V3._coords_from_kml.
  destruct (find_point root) as [pt|]; [done|].
  simpl. by intros <- Hne.
Qed.




(** X13. A plan that is not a JSON object, or has no [mission], or whose
    mission is not an object, or whose mission has no items and no
    [plannedHomePosition] of two or more entries, gives [(None, None)]:
    the missing keys raise nothing. *)
Theorem plan_without_coordinates_not_found (data : json) :
  plan_without_coordinates data -> _coords_from_plan data = Ret (None, None).
Proof.
  unfold plan_without_coordinates, _coords_from_plan, first_waypoint, planned_home, py_get.
  destruct data as [| | | | | |top]; try done.
  destruct (assoc "mission" top) as [[| | | | | |mkv]|]; try done.
  intros [Hitems Hhome]. rewrite !py_bind_ret.
  assert (match assoc "items" mkv with Some v => v | None => JArr [] end = JArr []) as ->.
  { by destruct Hitems as [-> | ->]. }
  simpl. unfold short_home in Hhome.
  destruct (assoc "plannedHomePosition" mkv) as [[| | | | |[|p0 [|p1 ps]]|]|]; done.
Qed.

(** X14. Without a Point, v3.py's scan converts the first two
    comma-separated parts of the first candidate element outside any
    [try]: when one of them is not a number the extraction raises
    [ValueError] and the import ends in "Import failed", where sim.py
    ends in "Not found". *)
Theorem v3_scan_raises_on_bad_number root pre e post t p0 p1 ps :
  find_point root = None ->
  iter root = pre ++ e :: post ->
  Forall passed_over pre ->
  contains "coordinates" (tag_of e) = true ->
  text_of e = Some t -> t <> "" ->
  split_on "," (strip t) = p0 :: p1 :: ps ->
  float_of_str p1 = None \/ float_of_str p0 = None ->
  V3._coords_from_kml root = Raise ValueError /\
  V3._import_coords (KmlSource (Ret root)) = ImportFailed ValueError /\
  Sim._import_coords (KmlSource (Ret root)) = NotFound.
Proof.
  intros Hpt Hiter Hpre Htag Htxt Hne Hsplit Hbad.
  assert (V3._coords_from_kml root = Raise ValueError) as Hv3.
  { unfold V3._coords_from_kml.
    rewrite Hpt, Hiter, (scan_coordinates_skip _ _ Hpre).
    cbn [scan_coordinates]. rewrite Htag, Htxt, Hsplit.
    unfold float_of_text. destruct t; [done|].
    destruct Hbad as [-> | Hp0]; [done|].
    destruct (float_of_str p1); [|done]. by rewrite py_bind_ret, Hp0. }
  split_and!; [done| |].
  - unfold V3._import_coords, import_coords_with, extract_with.
    by rewrite py_bind_ret, Hv3.
  - unfold Sim._import_coords, import_coords_with, extract_with, Sim._coords_from_kml.
    by rewrite py_bind_ret, Hpt.
Qed.
End ImportFurther.

(** ** Vehicle targets *)

Section VehicleTargets.

Lemma targets_of_listing (entries : list dir_entry) :
  _get_vehicle_targets (Some entries) ≡ₚ
    match listed_targets entries with
    | [] => [default_target]
    | _ => listed_targets entries
    end.
Proof.
  unfold _get_vehicle_targets.
  destruct (listed_targets entries) as [|t ts]; [done|].
  apply merge_sort_Permutation.
Qed.

Lemma listed_targets_elem (entries : list dir_entry) (t : string) :
  t ∈ listed_targets entries <->
  exists d, d ∈ entries /\ qualifies d /\ t = "gazebo_" +:+ entry_name d.
Proof.
  unfold listed_targets. rewrite list_elem_of_fmap. split.
  - intros (d & -> & Hd). apply list_elem_of_filter in Hd as [Hq Hd]. eauto.
  - intros (d & Hd & Hq & ->). exists d. split; [done|].
    apply list_elem_of_filter. by split.
Qed.

Lemma vehicle_targets_nonempty (sitl : option (list dir_entry)) :
  _get_vehicle_targets sitl <> [].
Proof.
  destruct sitl as [entries|]; [|done].
  pose proof (targets_of_listing entries) as Hperm.
  intros Hnil. rewrite Hnil in Hperm.
  apply Permutation_nil in Hperm. by destruct (listed_targets entries).
Qed.

(** X15. [_get_vehicle_targets] never returns an empty list (so
    [targets[0]] is safe), every target it returns starts with
    [gazebo_], and when some subdirectory holds a [default.cmake] the
    targets are exactly the names of those subdirectories with the
    prefix put in front. *)
Theorem vehicle_targets_nonempty_prefixed (sitl : option (list dir_entry)) :
  _get_vehicle_targets sitl <> [] /\
  Forall (fun t => exists name, t = "gazebo_" +:+ name) (_get_vehicle_targets sitl) /\
  (forall entries d0,
     sitl = Some entries -> d0 ∈ entries -> qualifies d0 ->
     forall t, t ∈ _get_vehicle_targets sitl <->
               exists d, d ∈ entries /\ qualifies d /\ t = "gazebo_" +:+ entry_name d).
Proof.
  split; [apply vehicle_targets_nonempty|].
  destruct sitl as [entries|].
  - pose proof (targets_of_listing entries) as Hperm.
    pose proof (listed_targets_elem entries) as Hmem.
    split.
    + rewrite Hperm. destruct (listed_targets entries) as [|t ts] eqn:Ht.
      * repeat constructor. by exists "typhoon_h480".
      * apply Forall_forall. intros t' Ht'.
        apply Hmem in Ht' as (d & _ & _ & ->). eauto.
    + intros entries' d0 [= <-] Hd0 Hq0 t. rewrite Hperm.
      destruct (listed_targets entries) as [|t0 ts] eqn:Ht.
      * exfalso. assert (("gazebo_" +:+ entry_name d0) ∈ ([] : list string)) as Hin
          by (apply Hmem; eauto).
        by apply not_elem_of_nil in Hin.
      * apply Hmem.
  - split; [|done]. repeat constructor. by exists "typhoon_h480".
Qed.

(** X16. The targets come out sorted, and their order does not depend
    on the order in which the file system lists the directory: two
    listings with the same entries give the same list. *)
Theorem vehicle_targets_sorted_stable (entries entries' : list dir_entry) :
  entries ≡ₚ entries' ->
  Sorted String.le (_get_vehicle_targets (Some entries)) /\
  _get_vehicle_targets (Some entries) = _get_vehicle_targets (Some entries').
Proof.
  intros Hperm.
  assert (forall es, Sorted String.le (_get_vehicle_targets (Some es))) as Hsorted.
  { intros es. unfold _get_vehicle_targets.
    destruct (listed_targets es) as [|t ts]; [repeat constructor|].
    apply (Sorted_merge_sort String.le). }
  split; [apply Hsorted|].
  apply (Sorted_unique String.le); [apply Hsorted..|].
  rewrite !targets_of_listing.
  assert (listed_targets entries ≡ₚ listed_targets entries') as Ht.
  { unfold listed_targets. by rewrite Hperm. }
  destruct (listed_targets entries) as [|t ts].
  - apply Permutation_nil in Ht. by rewrite Ht.
  - destruct (listed_targets entries') as [|t' ts'].
    + symmetry in Ht. by apply Permutation_nil in Ht.
    + done.
Qed.

(** X17. After a folder was chosen in [_select_px4_dir], the vehicle
    selected is always one of the targets offered in the combo box:
    the previous selection when it is among them, else the first
    target. *)
Theorem selected_vehicle_is_offered d sitl vehicle px4_dir targets vehicle' :
  _select_px4_dir d sitl vehicle = Some (px4_dir, targets, vehicle') ->
  px4_dir = d /\ targets = _get_vehicle_targets sitl /\
  vehicle' ∈ targets /\
  (vehicle ∈ targets -> vehicle' = vehicle) /\
  (vehicle ∉ targets -> head targets = Some vehicle').
Proof.
  unfold _select_px4_dir. destruct (decide (d = "")); [discriminate|].
  intros [= <- <- <-]. split; [done|]. split; [done|].
  pose proof (vehicle_targets_nonempty sitl) as Hne.
  destruct (_get_vehicle_targets sitl) as [|t ts] eqn:Ht; [done|].
  destruct (decide (vehicle ∈ t :: ts)) as [Hin|Hout].
  - rewrite bool_decide_eq_false_2 by (by intros ?). simpl.
    split_and!; [done|done|by intros ?].
  - rewrite !bool_decide_eq_true_2 by done. simpl.
    split_and!; [by left|by intros ?|done].
Qed.
End VehicleTargets.

(** ** Launch validation of v3.py *)

Section StartFacts.

Lemma lstrip_head (s : string) :
  lstrip s = "" \/ exists c r, lstrip s = String c r /\ is_space c = false.
Proof.
  induction s as [|c s IH]; simpl; [by left|].
  destruct (is_space c) eqn:Hc; [done|]. right. eauto.
Qed.

Lemma rstrip_cons_word (c : ascii) (r : string) :
  is_space c = false -> rstrip (String c r) = String c (rstrip r).
Proof. intros Hc. simpl. rewrite Hc. by destruct (rstrip r). Qed.

Lemma rstrip_idem (s : string) : rstrip (rstrip s) = rstrip s.
Proof.
  induction s as [|c s IH]; [done|]. simpl.
  destruct (rstrip s) as [|c' r'] eqn:Hr.
  - destruct (is_space c) eqn:Hc; [done|]. simpl. by rewrite Hc.
  - cbn [rstrip]. cbn [rstrip] in IH. by rewrite IH.
Qed.

(** [strip] is idempotent. *)
Lemma strip_idem (s : string) : strip (strip s) = strip s.
Proof.
  unfold strip.
  assert (lstrip (rstrip (lstrip s)) = rstrip (lstrip s)) as ->;
    [|apply rstrip_idem].
  destruct (lstrip_head s) as [-> | (c & r & -> & Hc)]; [done|].
  rewrite (rstrip_cons_word _ _ Hc). simpl. by rewrite Hc.
Qed.

Lemma is_space_replace (c : ascii) :
  is_space (if decide (c = ","%char) then "."%char else c) = is_space c.
Proof. destruct (decide (c = ","%char)) as [-> |]; reflexivity. Qed.

Lemma replace_comma_idem (s : string) : replace_comma (replace_comma s) = replace_comma s.
Proof.
  induction s as [|c s IH]; simpl; [done|]. rewrite IH.
  destruct (decide (c = ","%char)) as [-> |Hc]; [reflexivity|].
  by rewrite decide_False.
Qed.

Lemma lstrip_replace (s : string) : lstrip (replace_comma s) = replace_comma (lstrip s).
Proof.
  induction s as [|c s IH]; simpl; [done|].
  rewrite is_space_replace. by destruct (is_space c).
Qed.

Lemma rstrip_replace (s : string) : rstrip (replace_comma s) = replace_comma (rstrip s).
Proof.
  induction s as [|c s IH]; simpl; [done|].
  rewrite IH, is_space_replace.
  destruct (rstrip s); simpl; [by destruct (is_space c)|done].
Qed.

(** Normalising a field twice is normalising it once. *)
Lemma normalise_idem (s : string) :
  strip (replace_comma (strip (replace_comma s))) = strip (replace_comma s).
Proof.
  unfold strip at 2. rewrite <-rstrip_replace, <-lstrip_replace, replace_comma_idem.
  apply strip_idem.
Qed.
End StartFacts.

Section StartClaims.
Context `{PF : PyFloat}.

Lemma start_started is_running is_dir pd lat_v lon_v alt_v speed_v pd' lat' lon' alt' speed' w :
  V3Start._start is_running is_dir pd lat_v lon_v alt_v speed_v =
    Started pd' lat' lon' alt' speed' w ->
  is_running = false /\ pd' = strip pd /\ pd' <> "" /\ is_dir pd' = true /\
  alt' = strip (replace_comma alt_v) /\ speed' = strip speed_v /\
  exists la lo,
    float_of_str (strip (replace_comma lat_v)) = Some la /\
    float_of_str (strip (replace_comma lon_v)) = Some lo /\
    w = (la <? lo)%float /\
    lat' = strip (replace_comma (if w then lon_v else lat_v)) /\
    lon' = strip (replace_comma (if w then lat_v else lon_v)).
Proof.
  unfold V3Start._start. destruct is_running; [discriminate|].
  destruct (decide (strip pd = "")) as [|Hne]; [discriminate|].
  destruct (is_dir (strip pd)) eqn:Hdir; [|discriminate]. simpl.
  unfold float_of_text.
  destruct (float_of_str (strip (replace_comma lat_v))) as [la|]; [|discriminate].
  destruct (float_of_str (strip (replace_comma lon_v))) as [lo|]; [|discriminate].
  rewrite !py_bind_ret.
  destruct (la <? lo)%float eqn:Hlt; intros [= <- <- <- <- <- <-];
    split_and!; try done; exists la, lo; by rewrite Hlt.
Qed.

(** X18. v3.py never starts a simulation with a latitude below the
    longitude: the values handed to the start sequence are the two
    normalised fields (decimal comma replaced, blanks stripped), both
    numeric, exchanged exactly when the number in the first is less than
    the number in the second, with the swap warning logged exactly then;
    equal numbers, or a NaN, are left as entered without a warning. *)
Theorem v3_start_orders_coordinates
    is_running is_dir pd lat_v lon_v alt_v speed_v pd' lat' lon' alt' speed' w :
  V3Start._start is_running is_dir pd lat_v lon_v alt_v speed_v =
    Started pd' lat' lon' alt' speed' w ->
  exists x_lat x_lon la lo,
    float_of_str (strip (replace_comma lat_v)) = Some x_lat /\
    float_of_str (strip (replace_comma lon_v)) = Some x_lon /\
    w = (x_lat <? x_lon)%float /\
    lat' = strip (replace_comma (if (x_lat <? x_lon)%float then lon_v else lat_v)) /\
    lon' = strip (replace_comma (if (x_lat <? x_lon)%float then lat_v else lon_v)) /\
    float_of_str lat' = Some la /\ float_of_str lon' = Some lo /\
    (la, lo) = (if (x_lat <? x_lon)%float then (x_lon, x_lat) else (x_lat, x_lon)) /\
    (la <? lo)%float = false.
Proof.
  intros Hs. apply start_started in Hs
    as (_ & _ & _ & _ & _ & _ & x_lat & x_lon & Hla & Hlo & Hw & -> & ->).
  exists x_lat, x_lon. rewrite <-Hw. destruct w.
  - exists x_lon, x_lat. split_and!; try done. by apply float_ltb_asym.
  - exists x_lat, x_lon. by split_and!.
Qed.

(** X19. Starting again from the values of a start (as they are saved
    to the configuration and handed to the start sequence) changes
    nothing: the same values are used, nothing is swapped a second time,
    no warning is logged. *)
Theorem v3_restart_is_stable
    is_running is_dir pd lat_v lon_v alt_v speed_v pd' lat' lon' alt' speed' w :
  V3Start._start is_running is_dir pd lat_v lon_v alt_v speed_v =
    Started pd' lat' lon' alt' speed' w ->
  V3Start._start false is_dir pd' lat' lon' alt' speed' =
    Started pd' lat' lon' alt' speed' false.
Proof.
  intros Hs. apply start_started in Hs
    as (_ & -> & Hne & Hdir & -> & -> & la & lo & Hla & Hlo & Hw & -> & ->).
  unfold V3Start._start.
  rewrite !strip_idem, !normalise_idem, Hdir.
  rewrite decide_False by done. simpl. unfold float_of_text.
  destruct w.
  - rewrite Hlo, Hla, !py_bind_ret. symmetry in Hw.
    by rewrite (float_ltb_asym _ _ Hw).
  - by rewrite Hla, Hlo, !py_bind_ret, <-Hw.
Qed.

(** X20. v3.py starts whenever no simulation runs, the project folder
    exists and both coordinate fields are numeric, and only then: there
    is no range check on the coordinates, and the altitude and speed
    fields are passed on without being looked at. *)
Theorem v3_start_accepts is_running is_dir pd lat_v lon_v alt_v speed_v :
  (exists pd' lat' lon' alt' speed' w,
     V3Start._start is_running is_dir pd lat_v lon_v alt_v speed_v =
       Started pd' lat' lon' alt' speed' w) <->
  is_running = false /\ strip pd <> "" /\ is_dir (strip pd) = true /\
  is_Some (float_of_str (strip (replace_comma lat_v))) /\
  is_Some (float_of_str (strip (replace_comma lon_v))).
Proof.
  split.
  - intros (pd' & lat' & lon' & alt' & speed' & w & Hs).
    apply start_started in Hs
      as (? & -> & ? & ? & _ & _ & la & lo & Hla & Hlo & _).
    rewrite Hla, Hlo. eauto.
  - intros (-> & Hne & Hdir & [la Hla] & [lo Hlo]).
    unfold V3Start._start. rewrite decide_False, Hdir by done. simpl.
    unfold float_of_text. rewrite Hla, Hlo, !py_bind_ret.
    destruct (la <? lo)%float; eauto 10.
Qed.
End StartClaims.

(** ** The conversion driver and the altitude channel *)

Section DriverFurther.
Context `{PF : PyFloat}.

(** X21. A conversion that reports success names a file that was not
    in the output directory before and is there afterwards, chosen by
    [_unique_name] from the log's stem.  After the external tool that
    file holds what the tool left in [track.kml], and [track.kml] is gone
    unless both the rename and the unlink failed; after the fallback it
    holds a fallback track. *)
Theorem run_success_names_new_file tool rename_ok unlink_ok ulg_name ulog dir msg dir' :
  run tool rename_ok unlink_ok ulg_name ulog dir = (Success msg, dir') ->
  exists tgt,
    _unique_name (S (size (dom dir))) (dom dir) (stem ulg_name +:+ ".kml") = Some tgt /\
    dir !! tgt = None /\
    (msg = "KML created: " +:+ tgt /\
     is_Some (dir !! "track.kml") /\ dir' !! tgt = dir !! "track.kml" /\
     (rename_ok || unlink_ok = true -> dir' !! "track.kml" = None)
     \/
     msg = "KML created (fallback): " +:+ tgt /\
     exists k, dir' !! tgt = Some (FallbackTrack k) /\ ls_coords k <> []).
Proof.
  unfold run. set (base := stem ulg_name +:+ ".kml").
  destruct tool as [returncode|e]; [|discriminate].
  pose proof (unique_name_fresh (S (size (dom dir))) (dom dir) base) as Hfresh.
  destruct (_unique_name (S (size (dom dir))) (dom dir) base) as [tgt|];
    [|destruct (if returncode =? 0 then _ else _); discriminate].
  specialize (Hfresh tgt eq_refl). apply not_elem_of_dom in Hfresh.
  destruct (if returncode =? 0 then dir !! "track.kml" else None) as [produced|] eqn:Htool.
  - intros [= <- <-]. exists tgt. split; [done|]. split; [done|]. left.
    assert (dir !! "track.kml" = Some produced) as Hprod.
    { destruct (returncode =? 0); [done|discriminate]. }
    assert (tgt <> "track.kml") as Hne by (intros ->; congruence).
    rewrite Hprod. split_and!; [done|by eexists| |].
    + destruct rename_ok; [|destruct unlink_ok].
      * by rewrite lookup_insert_eq.
      * by rewrite lookup_delete_ne, lookup_insert_eq.
      * by rewrite lookup_insert_eq.
    + destruct rename_ok; [|destruct unlink_ok]; simpl; intros Hok.
      * by rewrite lookup_insert_ne, lookup_delete_eq.
      * by rewrite lookup_delete_eq.
      * discriminate.
  - destruct ulog as [data_list|e]; [|discriminate].
    unfold _fallback_ulog_to_kml, extract_track.
    destruct (select_topic data_list) as [[d [lat|] [lon|] alt scale]|];
      try discriminate.
    destruct (extract_coords lat lon alt scale 5) as [[|c coords]|e];
      simpl; try discriminate.
    intros [= <- <-]. exists tgt. split; [done|]. split; [done|]. right.
    split; [done|]. eexists. by rewrite lookup_insert_eq.
Qed.

(** X22. The altitude of a track sample is never divided by the scale
    of the topic: it is the altitude entry divided by 1.0, or 0.0 when
    the entry is unusable or the channel missing, for the GPS topic (whose
    latitude and longitude are divided by 1e7) as for the global one. *)
Theorem altitude_is_never_scaled lat lon alt scale downsample track :
  extract_coords lat lon alt scale downsample = Ret track ->
  Forall (fun c => exists i, altitude_at alt i = Some c.2) track.
Proof.
  unfold extract_coords. intros Hrun.
  eapply track_loop_scaled; [|constructor|exact Hrun].
  intros i c. unfold sample_at, py_index, altitude_at.
  destruct (lat !! i) as [x|]; [|discriminate].
  destruct (lon !! i) as [y|]; [|discriminate]. simpl.
  destruct alt as [a|]; simpl.
  - unfold py_index. destruct (a !! i) as [z|] eqn:Hz; [|discriminate]. simpl.
    destruct (f x scale), (f y scale); try discriminate.
    intros [= <-]. exists i. rewrite Hz. simpl. by destruct (f z 1).
  - destruct (f x scale), (f y scale); try discriminate.
    intros [= <-]. by exists i.
Qed.
End DriverFurther.

(** ** Exceptions *)

Section ExceptionFacts.
Context `{PF : PyFloat}.





(** X24. On arrays of one length, as pyulog delivers them, the fallback
    extraction never fails on an index: it returns a track that is not
    empty, or raises the empty-track error. *)
Theorem aligned_log_has_no_index_error data_list d lat lon alt scale downsample :
  select_topic data_list = Some (Selection d (Some lat) (Some lon) alt scale) ->
  aligned lat lon alt ->
  (exists track, track <> [] /\ extract_track data_list downsample = Ret track) \/
  extract_track data_list downsample = Raise (RuntimeError no_samples_msg).
Proof.
  intros Hsel Hal. unfold extract_track. rewrite Hsel. unfold extract_coords.
  destruct (track_loop_total lat lon alt scale downsample Hal (length lat) 0 []
              (- downsample) ltac:(lia)) as [rest ->].
  simpl. destruct rest as [|c rest]; [by right|]. left. by exists (c :: rest).
Qed.
End ExceptionFacts.

(** ** The further properties on concrete inputs *)

Lemma track_is_spaced_selection_witness :
  exists idx,
    Forall2 (fun j c => sample_at (PF := sample_builtins) lat12 lon12 (Some alt12) 1 j
                        = Ret (Some c)) idx
      [(100%float, 0%float, 30%float); (106%float, 6%float, 30%float);
       (111%float, 11%float, 30%float)] /\
    apart_from 5 (- 5) idx /\
    Forall (fun j => (j < length lat12)%nat) idx.
Proof.
  apply (track_is_spaced_selection (PF := sample_builtins) lat12 lon12 (Some alt12) 1 5).
  vm_compute. reflexivity.
Defined.

Lemma fallback_writes_one_finite_track_witness :
  exists track,
    track <> [] /\ Forall finite_sample track /\
    (_fallback_ulog_to_kml (PF := sample_builtins) "flight.ulg" log3 "flight.kml" 2
       ({["notes.txt" := ToolOutput "n"]})).2 !! "flight.kml" =
      Some (FallbackTrack (track_file "flight.ulg" track)) /\
    ls_coords (track_file "flight.ulg" track) = track /\
    forall other, other <> "flight.kml" ->
      (_fallback_ulog_to_kml (PF := sample_builtins) "flight.ulg" log3 "flight.kml" 2
         ({["notes.txt" := ToolOutput "n"]})).2 !! other =
      ({["notes.txt" := ToolOutput "n"]} : directory) !! other.
Proof.
  apply (fallback_writes_one_finite_track (PF := sample_builtins)
           "flight.ulg" log3 "flight.kml" 2 {["notes.txt" := ToolOutput "n"]}).
  vm_compute. reflexivity.
Defined.

Lemma clean_log_regular_stride_witness :
  extract_coords (PF := sample_builtins)
    [CFloat 47.25%float; CFloat 47.5%float; CFloat 47.75%float]
    [CFloat 8.5%float; CFloat 8.25%float; CFloat 8%float] None 1 2 =
  Ret ((fun j => nth j [(8.5%float, 47.25%float, 0%float);
                        (8.25%float, 47.5%float, 0%float);
                        (8%float, 47.75%float, 0%float)]
                   (0%float, 0%float, 0%float))
       <$> stride_indices 2 3).
Proof.
  apply (clean_log_regular_stride (PF := sample_builtins)
           [CFloat 47.25%float; CFloat 47.5%float; CFloat 47.75%float]
           [CFloat 8.5%float; CFloat 8.25%float; CFloat 8%float] None 1 2).
  - lia.
  - intros [|[|[|j]]] Hj; [reflexivity..|simpl in Hj; lia].
Defined.

Lemma stride_one_keeps_all_witness :
  extract_coords (PF := sample_builtins)
    [CFloat 47.25%float; CFloat nan; CFloat 47.75%float]
    [CFloat 8.5%float; CFloat 8.25%float; CFloat 8%float] None 1 1 =
  Ret (omap (fun j => nth j [Some (8.5%float, 47.25%float, 0%float); None;
                             Some (8%float, 47.75%float, 0%float)] None)
         (seq 0 3)).
Proof.
  apply (stride_one_keeps_all (PF := sample_builtins)
           [CFloat 47.25%float; CFloat nan; CFloat 47.75%float]
           [CFloat 8.5%float; CFloat 8.25%float; CFloat 8%float] None 1 1).
  - lia.
  - intros [|[|[|j]]] Hj; [reflexivity..|simpl in Hj; lia].
Defined.

Lemma global_topic_shadows_gps_witness :
  extract_track (PF := sample_builtins) shadowed_log 5 = Raise (RuntimeError no_topic_msg).
Proof.
  apply (global_topic_shadows_gps (PF := sample_builtins) shadowed_log
           (Topic "vehicle_global_position" (<["alt" := [CFloat 400%float]]> ∅)) 5).
  - reflexivity.
  - left. vm_compute. reflexivity.
Defined.


Lemma unique_name_any_base_witness :
  stem "README" +:+ suffix "README" = "README" /\
  exists n,
    _unique_name 2 {["README"]} "README" = Some n /\ (n ∉ ({["README"]} : gset string)) /\
    (("README" ∉ ({["README"]} : gset string)) /\ n = "README" \/
     "README" ∈ ({["README"]} : gset string) /\
     exists i, (1 <= i)%nat /\
       n = stem "README" +:+ "-" +:+ pretty i +:+ suffix "README" /\
       forall j, (1 <= j < i)%nat ->
         (stem "README" +:+ "-" +:+ pretty j +:+ suffix "README") ∈
           ({["README"]} : gset string)).
Proof.
  apply (unique_name_any_base {["README"]} "README" 2).
  vm_compute. lia.
Defined.

Lemma successive_names_distinct_witness :
  "flight.kml" <> "flight-2.kml" /\
  ("flight.kml" ∉ ({["notes.txt"]} : gset string)) /\
  ("flight-2.kml" ∉ ({["notes.txt"]} : gset string)).
Proof.
  apply (successive_names_distinct 4 "flight.kml" 0 2 {["notes.txt"]}).
  - lia.
  - vm_compute. reflexivity.
  - vm_compute. reflexivity.
Defined.

Lemma imported_pair_is_ordered_witness :
  (10 <? -50)%float = false /\
  finish_import 10 (-50) = Imported 10 (-50) [ImportedNotice 10 (-50)].
Proof.
  apply (imported_pair_is_ordered (PF := sample_builtins)
           (PlanSource (Ret (home_plan (-50) 10))) 10 (-50)
           [SwapNotice; ImportedNotice 10 (-50)]).
  left. vm_compute. reflexivity.
Defined.

Lemma v3_extends_sim_witness :
  V3._coords_from_kml (PF := sample_builtins) point_doc =
    Ret (Some 47.25%float, Some 8.5%float).
Proof.
  apply (v3_extends_sim (PF := sample_builtins) point_doc).
  - vm_compute. reflexivity.
  - discriminate.
Defined.



Lemma plan_without_coordinates_not_found_witness :
  _coords_from_plan (PF := sample_builtins)
    (JObj [("fileType", JStr "Plan");
           ("mission", JObj [("items", JArr []);
                             ("plannedHomePosition", JArr [JFloat 47.25])])]) =
    Ret (None, None).
Proof.
  apply (plan_without_coordinates_not_found (PF := sample_builtins)).
  simpl. split; [by right|exact I].
Defined.

Lemma v3_scan_raises_on_bad_number_witness :
  V3._coords_from_kml (PF := sample_builtins) pair_doc = Raise ValueError /\
  V3._import_coords (PF := sample_builtins) (KmlSource (Ret pair_doc)) =
    ImportFailed ValueError /\
  Sim._import_coords (PF := sample_builtins) (KmlSource (Ret pair_doc)) = NotFound.
Proof.
  apply (v3_scan_raises_on_bad_number (PF := sample_builtins) pair_doc
           [pair_doc; pair_string] pair_coordinates []
           "8.5,47.25 8.75,47.5" "8.5" "47.25 8.75" ["47.5"]).
  - vm_compute. reflexivity.
  - reflexivity.
  - repeat constructor; left; vm_compute; reflexivity.
  - vm_compute. reflexivity.
  - reflexivity.
  - discriminate.
  - reflexivity.
  - left. reflexivity.
Defined.

Lemma vehicle_targets_sorted_stable_witness :
  Sorted String.le (_get_vehicle_targets (Some sitl_listing)) /\
  _get_vehicle_targets (Some sitl_listing) = _get_vehicle_targets (Some sitl_listing').
Proof.
  apply (vehicle_targets_sorted_stable sitl_listing sitl_listing').
  apply perm_swap.
Defined.

Lemma selected_vehicle_is_offered_witness :
  "/px4" = "/px4" /\
  ["gazebo_iris"; "gazebo_typhoon_h480"] = _get_vehicle_targets (Some sitl_listing) /\
  "gazebo_iris" ∈ ["gazebo_iris"; "gazebo_typhoon_h480"] /\
  ("gazebo_plane" ∈ ["gazebo_iris"; "gazebo_typhoon_h480"] -> "gazebo_iris" = "gazebo_plane") /\
  ("gazebo_plane" ∉ ["gazebo_iris"; "gazebo_typhoon_h480"] ->
   head ["gazebo_iris"; "gazebo_typhoon_h480"] = Some "gazebo_iris").
Proof.
  apply (selected_vehicle_is_offered "/px4" (Some sitl_listing) "gazebo_plane").
  vm_compute. reflexivity.
Defined.

Lemma v3_start_orders_coordinates_witness :
  exists x_lat x_lon la lo,
    float_of_str (PyFloat := sample_builtins) (strip (replace_comma " 8,5 ")) = Some x_lat /\
    float_of_str (PyFloat := sample_builtins) (strip (replace_comma "47,25")) = Some x_lon /\
    true = (x_lat <? x_lon)%float /\
    "47.25" = strip (replace_comma (if (x_lat <? x_lon)%float then "47,25" else " 8,5 ")) /\
    "8.5" = strip (replace_comma (if (x_lat <? x_lon)%float then " 8,5 " else "47,25")) /\
    float_of_str (PyFloat := sample_builtins) "47.25" = Some la /\
    float_of_str (PyFloat := sample_builtins) "8.5" = Some lo /\
    (la, lo) = (if (x_lat <? x_lon)%float then (x_lon, x_lat) else (x_lat, x_lon)) /\
    (la <? lo)%float = false.
Proof.
  apply (v3_start_orders_coordinates (PF := sample_builtins)
           false (fun _ => true) "/proj" " 8,5 " "47,25" "400" "20" "/proj" "47.25" "8.5"
           "400" "20" true).
  vm_compute. reflexivity.
Defined.

Lemma v3_restart_is_stable_witness :
  V3Start._start (PF := sample_builtins) false (fun _ => true)
    "/proj" "47.25" "8.5" "400" "20" =
    Started "/proj" "47.25" "8.5" "400" "20" false.
Proof.
  apply (v3_restart_is_stable (PF := sample_builtins)
           false (fun _ => true) "/proj" " 8,5 " "47,25" "400" "20" "/proj" "47.25" "8.5"
           "400" "20" true).
  vm_compute. reflexivity.
Defined.

Lemma run_success_names_new_file_witness :
  exists tgt,
    _unique_name (S (size (dom ({["flight.kml" := ToolOutput "old"]} : directory))))
      (dom ({["flight.kml" := ToolOutput "old"]} : directory))
      (stem "flight.ulg" +:+ ".kml") = Some tgt /\
    ({["flight.kml" := ToolOutput "old"]} : directory) !! tgt = None /\
    ("KML created (fallback): flight-1.kml" = "KML created: " +:+ tgt /\
     is_Some (({["flight.kml" := ToolOutput "old"]} : directory) !! "track.kml") /\
     (run (PF := sample_builtins) (Ret 1) true true "flight.ulg" (Ret log3)
        {["flight.kml" := ToolOutput "old"]}).2 !! tgt =
       ({["flight.kml" := ToolOutput "old"]} : directory) !! "track.kml" /\
     (true || true = true ->
      (run (PF := sample_builtins) (Ret 1) true true "flight.ulg" (Ret log3)
         {["flight.kml" := ToolOutput "old"]}).2 !! "track.kml" = None)
     \/
     "KML created (fallback): flight-1.kml" = "KML created (fallback): " +:+ tgt /\
     exists k,
       (run (PF := sample_builtins) (Ret 1) true true "flight.ulg" (Ret log3)
          {["flight.kml" := ToolOutput "old"]}).2 !! tgt = Some (FallbackTrack k) /\
       ls_coords k <> []).
Proof.
  apply (run_success_names_new_file (PF := sample_builtins) (Ret 1) true true
           "flight.ulg" (Ret log3) {["flight.kml" := ToolOutput "old"]}).
  vm_compute. reflexivity.
Defined.

Lemma altitude_is_never_scaled_witness :
  Forall (fun c : sample =>
            exists i, altitude_at (PF := sample_builtins) (Some [CInt 488000]) i = Some c.2)
    [((85455940 / 1e7)%float, (473977420 / 1e7)%float, 488000%float)].
Proof.
  apply (altitude_is_never_scaled (PF := sample_builtins)
           [CInt 473977420] [CInt 85455940] (Some [CInt 488000]) 1e7 5).
  vm_compute. reflexivity.
Defined.


Lemma aligned_log_has_no_index_error_witness :
  (exists track, track <> [] /\ extract_track (PF := sample_builtins) log12 5 = Ret track) \/
  extract_track (PF := sample_builtins) log12 5 = Raise (RuntimeError no_samples_msg).
Proof.
  apply (aligned_log_has_no_index_error (PF := sample_builtins) log12 topic12
           lat12 lon12 (Some alt12) 1 5).
  - vm_compute. reflexivity.
  - split; reflexivity.
Defined.
